(** * A shallow embedding of the News API service (app.py)

    The service is a Flask application with six routes over one table,
    [news(id, title, content)], reached through psycopg2.  The handlers are
    embedded as computations in a small monad that threads the process state
    (environment, database, scripted failures), can raise Python exceptions,
    and records the observable effects (connection attempts, sleeps, log
    calls, SQL statements, commit, rollback, close) as a list of events.

    What lies outside app.py is the environment of the program and is
    modelled explicitly:
    - the database is a finite map from primary key to (title, content);
      a connection works on a private copy that [commit] publishes and
      [rollback] or [close] discards;
    - whether [psycopg2.connect] succeeds, and whether a statement, a commit
      or a rollback raises, is read from two scripts carried by the state, so
      that every theorem can quantify over every behaviour of the database;
    - Flask's dispatcher runs a handler, hands an [HTTPException] to the
      registered error handler, and wraps any other uncaught exception into
      an InternalServerError first.

    Assumptions of the model: [psycopg2.connect] raises nothing but
    [OperationalError]; creating a cursor, fetching from it and closing a
    connection raise nothing; JSON numbers are integers; requests are
    handled one at a time.  The columns of the table are text: a row of the
    model is what the table holds when its title is a string and its
    content a string or null, and the theorems say what is stored or read
    back for such values only. *)

From Stdlib Require Import ZArith NArith List String Ascii.
From stdpp Require Import base option list strings gmap sorting pretty.

Set Warnings "-register-all".
Local Open Scope Z_scope.

(** ** Python values *)

(** A Python [str] is a sequence of code points. *)
Definition pystr : Type := list N.

(** String literals of the source, read as code points. *)
Fixpoint lit (s : string) : pystr :=
  match s with
  | EmptyString => []
  | String a s' => N_of_ascii a :: lit s'
  end.

(** [str.isspace] on one code point: the white-space table of CPython. *)
Definition isspace (c : N) : bool :=
  (((9 <=? c) && (c <=? 13)) || ((28 <=? c) && (c <=? 32))
   || (c =? 133) || (c =? 160) || (c =? 5760)
   || ((8192 <=? c) && (c <=? 8202))
   || (c =? 8232) || (c =? 8233) || (c =? 8239) || (c =? 8287)
   || (c =? 12288))%N.

Fixpoint lstrip (s : pystr) : pystr :=
  match s with
  | [] => []
  | c :: s' => if isspace c then lstrip s' else s
  end.

Definition rstrip (s : pystr) : pystr := rev (lstrip (rev s)).

(** [s.strip()] *)
Definition strip (s : pystr) : pystr := rstrip (lstrip s).

(** The values that [request.get_json()] can return, which are also the
    values the handlers pass to the database and to [jsonify].  Numbers are
    the integers; a [dict] is the list of its items, looked up by key. *)
Inductive json : Type :=
| JNull
| JBool (b : bool)
| JNum (n : Z)
| JStr (s : pystr)
| JArr (items : list json)
| JObj (fields : list (pystr * json)).

Fixpoint dict_get (k : pystr) (d : list (pystr * json)) : option json :=
  match d with
  | [] => None
  | (k', v) :: d' => if decide (k' = k) then Some v else dict_get k d'
  end.

(** [isinstance(v, str)] *)
Definition is_str (v : json) : bool :=
  match v with JStr _ => true | _ => false end.

(** [type(v).__name__] *)
Definition type_name (v : json) : pystr :=
  match v with
  | JNull => lit "NoneType"
  | JBool _ => lit "bool"
  | JNum _ => lit "int"
  | JStr _ => lit "str"
  | JArr _ => lit "list"
  | JObj _ => lit "dict"
  end.

(** [needle in hay] on two strings: [needle] occurs as a substring. *)
Fixpoint starts_with (needle hay : pystr) : bool :=
  match needle, hay with
  | [], _ => true
  | _ :: _, [] => false
  | a :: needle', b :: hay' => bool_decide (a = b) && starts_with needle' hay'
  end.

Fixpoint substring_of (needle hay : pystr) : bool :=
  starts_with needle hay
  || match hay with
     | [] => false
     | _ :: hay' => substring_of needle hay'
     end.

(** ** Exceptions *)

Inductive exn : Type :=
| HTTPException (code : Z) (description : pystr)
| OperationalError (msg : pystr)
| DatabaseError (msg : pystr)
| TypeError (msg : pystr)
| KeyError (key : pystr)
| AttributeError (msg : pystr).

(** werkzeug's reason phrase for the status codes the service raises. *)
Definition http_name (code : Z) : pystr :=
  if decide (code = 400) then lit "Bad Request"
  else if decide (code = 404) then lit "Not Found"
  else if decide (code = 500) then lit "Internal Server Error"
  else lit "Unknown Error".

(** [str(e)] *)
Definition str_exn (e : exn) : pystr :=
  match e with
  | HTTPException code description =>
      lit (pretty code) ++ lit " " ++ http_name code ++ lit ": " ++ description
  | KeyError key => lit "'" ++ key ++ lit "'"
  | OperationalError msg | DatabaseError msg
  | TypeError msg | AttributeError msg => msg
  end.

(** ** Observable effects *)

Inductive log_level : Type := Warning | Error.

(** The statements the handlers send, with their bound parameters. *)
Inductive sql : Type :=
| SelectAllNews                                  (* SELECT id, title, content FROM news ORDER BY id; *)
| InsertNews (title content : json)              (* INSERT INTO news (title, content) VALUES (%s, %s) RETURNING id; *)
| SelectNewsById (item_id : Z)                   (* SELECT title, content FROM news WHERE id = %s; *)
| UpdateNews (title content : json) (item_id : Z) (* UPDATE news SET title = %s, content = %s WHERE id = %s; *)
| DeleteNewsReturning (item_id : Z).             (* DELETE FROM news WHERE id = %s RETURNING id; *)

Inductive event : Type :=
| EvConnect (ok : bool)
| EvSleep (seconds : Z)
| EvLog (level : log_level) (format : string) (args : list json)
| EvExecute (q : sql)
| EvCommit
| EvRollback
| EvClose.

(** ** The process state *)

Record world : Type := World {
  environ : gmap string pystr;          (* os.environ *)
  connects : list (option pystr);       (* what the next calls of psycopg2.connect do *)
  faults : list (option pystr);         (* what the next database calls do *)
  committed : gmap Z (json * json);     (* the table as every new connection sees it *)
  working : gmap Z (json * json);       (* the table as the open connection sees it *)
  next_id : Z                           (* the sequence behind the id column *)
}.

Definition set_connects (cs : list (option pystr)) (w : world) : world :=
  World (environ w) cs (faults w) (committed w) (working w) (next_id w).
Definition set_faults (fs : list (option pystr)) (w : world) : world :=
  World (environ w) (connects w) fs (committed w) (working w) (next_id w).
Definition set_committed (t : gmap Z (json * json)) (w : world) : world :=
  World (environ w) (connects w) (faults w) t (working w) (next_id w).
Definition set_working (t : gmap Z (json * json)) (w : world) : world :=
  World (environ w) (connects w) (faults w) (committed w) t (next_id w).
Definition set_next_id (n : Z) (w : world) : world :=
  World (environ w) (connects w) (faults w) (committed w) (working w) n.

(** ** The monad of handlers *)

Inductive outcome (A : Type) : Type :=
| Ok (a : A)
| Raise (e : exn).
Arguments Ok {A} a.
Arguments Raise {A} e.

Definition M (A : Type) : Type := world → outcome A * world * list event.

Definition ret {A} (a : A) : M A := λ w, (Ok a, w, []).

Definition bind {A B} (m : M A) (f : A → M B) : M B := λ w,
  match m w with
  | (Ok a, w1, evs1) =>
      match f a w1 with
      | (r, w2, evs2) => (r, w2, evs1 ++ evs2)
      end
  | (Raise e, w1, evs1) => (Raise e, w1, evs1)
  end.

Definition raise {A} (e : exn) : M A := λ w, (Raise e, w, []).

Definition emit (ev : event) : M unit := λ w, (Ok tt, w, [ev]).

(** [try: body  except ...: handler e]; a handler that does not match an
    exception raises it again. *)
Definition try_except {A} (body : M A) (handler : exn → M A) : M A := λ w,
  match body w with
  | (Ok a, w1, evs1) => (Ok a, w1, evs1)
  | (Raise e, w1, evs1) =>
      match handler e w1 with
      | (r, w2, evs2) => (r, w2, evs1 ++ evs2)
      end
  end.

(** [try: body  finally: cleanup] *)
Definition try_finally {A} (body : M A) (cleanup : M unit) : M A := λ w,
  match body w with
  | (r, w1, evs1) =>
      match cleanup w1 with
      | (Ok _, w2, evs2) => (r, w2, evs1 ++ evs2)
      | (Raise e, w2, evs2) => (Raise e, w2, evs1 ++ evs2)
      end
  end.

Declare Scope py_scope.
Delimit Scope py_scope with py.
Notation "x <- m ;; k" := (bind m (λ x, k))
  (at level 100, m at next level, right associativity) : py_scope.
Notation "m ;;; k" := (bind m (λ _, k))
  (at level 100, right associativity) : py_scope.
Local Open Scope py_scope.

(** ** Responses *)

Record response : Type := Response {
  status : Z;
  content_type : string;
  body : json
}.

(** [jsonify(v)]: a JSON response, status 200 until the view says otherwise. *)
Definition jsonify (v : json) : response := Response 200 "application/json" v.

(** A view returning the pair [(r, code)]. *)
Definition with_status (r : response) (code : Z) : response :=
  Response code (content_type r) (body r).

(** What a [try] statement hands to the code after it: the value of the
    block when it ran to its end, or the response of a [return] inside it. *)
Inductive flow (A : Type) : Type :=
| Fallthrough (a : A)
| Return (r : response).
Arguments Fallthrough {A} a.
Arguments Return {A} r.

(** ** The primitives the handlers call *)

(** [os.environ.get(name)] *)
Definition environ_get (name : string) : M (option pystr) := λ w,
  (Ok (environ w !! name), w, []).

(** Truth value of what [os.environ.get] returned: [None] and the empty
    string are false. *)
Definition truthy (v : option pystr) : bool :=
  match v with
  | Some (_ :: _) => true
  | _ => false
  end.

Inductive connection : Type := Connection.

(** [psycopg2.connect(...)]: succeeds, or raises [OperationalError], as the
    script says; a script that has run out means a database that is up.  A
    new connection sees the committed table. *)
Definition psycopg2_connect : M connection := λ w,
  match connects w with
  | Some msg :: cs => (Raise (OperationalError msg), set_connects cs w, [EvConnect false])
  | None :: cs => (Ok Connection, set_working (committed w) (set_connects cs w), [EvConnect true])
  | [] => (Ok Connection, set_working (committed w) w, [EvConnect true])
  end.

(** [time.sleep(seconds)] *)
Definition sleep (seconds : Z) : M unit := emit (EvSleep seconds).

(** [app.logger.warning(format, *args)] and [app.logger.error(format, *args)] *)
Definition logger_warning (format : string) (args : list json) : M unit :=
  emit (EvLog Warning format args).
Definition logger_error (format : string) (args : list json) : M unit :=
  emit (EvLog Error format args).

(** [abort(code, description=...)] *)
Definition abort {A} (code : Z) (description : string) : M A :=
  raise (HTTPException code (lit description)).

(** A call into the database: the event is recorded, then the call raises
    if the script says so, and runs otherwise. *)
Definition db_call {A} (ev : event) (run : world → outcome A * world) : M A := λ w,
  match faults w with
  | Some msg :: fs => (Raise (DatabaseError msg), set_faults fs w, [ev])
  | None :: fs => let '(r, w') := run (set_faults fs w) in (r, w', [ev])
  | [] => let '(r, w') := run w in (r, w', [ev])
  end.

Definition row_le (r1 r2 : Z * (json * json)) : Prop := r1.1 ≤ r2.1.
Global Instance row_le_dec : RelDecision row_le.
Proof. intros r1 r2. unfold row_le. apply _. Defined.

(** [cur.execute("SELECT id, title, content FROM news ORDER BY id;")] and
    [cur.fetchall()] *)
Definition execute_select_all (conn : connection) : M (list (Z * (json * json))) :=
  db_call (EvExecute SelectAllNews)
    (λ w, (Ok (merge_sort row_le (map_to_list (working w))), w)).

(** [cur.execute("INSERT ... RETURNING id;", (title, content))] and
    [cur.fetchone()[0]]: the sequence gives the id and moves on; a key that
    is already there violates the primary key.  A parameter that the driver
    or the database refuses (a dict, a null title) makes the call raise: that
    is a fault of the script.  The row keeps the parameters as they were
    bound: for a string, and for null as content, this is what the column
    holds; any other value stands for the text the database makes of it
    (5 is held as '5'), which the model does not compute. *)
Definition execute_insert (conn : connection) (title content : json) : M Z :=
  db_call (EvExecute (InsertNews title content))
    (λ w,
       let new_id := next_id w in
       match working w !! new_id with
       | Some _ =>
           (Raise (DatabaseError (lit "duplicate key value violates unique constraint")),
            set_next_id (new_id + 1) w)
       | None =>
           (Ok new_id,
            set_working (<[new_id := (title, content)]> (working w))
              (set_next_id (new_id + 1) w))
       end).

(** [cur.execute("SELECT title, content FROM news WHERE id = %s;", (item_id,))]
    and [cur.fetchone()] *)
Definition execute_select_by_id (conn : connection) (item_id : Z)
  : M (option (json * json)) :=
  db_call (EvExecute (SelectNewsById item_id))
    (λ w, (Ok (working w !! item_id), w)).

(** [cur.execute("UPDATE news SET title = %s, content = %s WHERE id = %s;", ...)];
    the parameters are kept and refused as for the INSERT. *)
Definition execute_update (conn : connection) (title content : json) (item_id : Z)
  : M unit :=
  db_call (EvExecute (UpdateNews title content item_id))
    (λ w,
       match working w !! item_id with
       | Some _ => (Ok tt, set_working (<[item_id := (title, content)]> (working w)) w)
       | None => (Ok tt, w)
       end).

(** [cur.execute("DELETE FROM news WHERE id = %s RETURNING id;", (item_id,))]
    and [cur.fetchone()] *)
Definition execute_delete_returning (conn : connection) (item_id : Z)
  : M (option Z) :=
  db_call (EvExecute (DeleteNewsReturning item_id))
    (λ w,
       match working w !! item_id with
       | Some _ => (Ok (Some item_id), set_working (delete item_id (working w)) w)
       | None => (Ok None, w)
       end).

(** [conn.commit()] *)
Definition commit (conn : connection) : M unit :=
  db_call EvCommit (λ w, (Ok tt, set_committed (working w) w)).

(** [conn.rollback()] *)
Definition rollback (conn : connection) : M unit :=
  db_call EvRollback (λ w, (Ok tt, set_working (committed w) w)).

(** [conn.close()]: what was not committed is lost. *)
Definition close (conn : connection) : M unit := λ w,
  (Ok tt, set_working (committed w) w, [EvClose]).

(** ** Requests *)

Record request : Type := Request {
  is_json : bool;              (* request.is_json: the content type says JSON *)
  json_body : option json      (* the body parsed as JSON, None when it does not parse *)
}.

(** [request.get_json()], called after [is_json] was checked: the parsed
    body, or werkzeug's BadRequest when the body does not parse. *)
Definition get_json (req : request) : M json :=
  match json_body req with
  | Some v => ret v
  | None =>
      abort 400
        "The browser (or proxy) sent a request that this server could not understand."
  end.

(** [key in payload] *)
Definition py_contains (key : pystr) (payload : json) : M bool :=
  match payload with
  | JObj d => ret (bool_decide (is_Some (dict_get key d)))
  | JArr l => ret (existsb (λ v, match v with JStr s => bool_decide (s = key) | _ => false end) l)
  | JStr s => ret (substring_of key s)
  | _ => raise (TypeError (lit "argument of type '" ++ type_name payload ++ lit "' is not iterable"))
  end.

(** [payload[key]] for a string [key] *)
Definition py_getitem (payload : json) (key : pystr) : M json :=
  match payload with
  | JObj d =>
      match dict_get key d with
      | Some v => ret v
      | None => raise (KeyError key)
      end
  | JArr _ => raise (TypeError (lit "list indices must be integers or slices, not str"))
  | JStr _ => raise (TypeError (lit "string indices must be integers"))
  | _ => raise (TypeError (lit "'" ++ type_name payload ++ lit "' object is not subscriptable"))
  end.

(** [payload.get(key, default)] *)
Definition py_get (payload : json) (key : pystr) (default : json) : M json :=
  match payload with
  | JObj d => ret (match dict_get key d with Some v => v | None => default end)
  | _ => raise (AttributeError (lit "'" ++ type_name payload ++ lit "' object has no attribute 'get'"))
  end.

(** [value.strip()] *)
Definition py_strip (value : json) : M pystr :=
  match value with
  | JStr s => ret (strip s)
  | _ => raise (AttributeError (lit "'" ++ type_name value ++ lit "' object has no attribute 'strip'"))
  end.

(** ** app.py *)

(** [range(start, stop)] *)
Definition range (start stop : Z) : list Z := seqZ start (stop - start).

(** The [for attempt in range(1, retries + 1)] loop of [get_db_connection]:
    [Some conn] is the [return conn] of the loop body, [None] is the loop
    running to its end. *)
Fixpoint connect_attempts (db_host db_name db_user db_pass : option pystr)
    (retries delay_seconds : Z) (attempts : list Z) : M (option connection) :=
  match attempts with
  | [] => ret None
  | attempt :: rest =>
      r <- try_except
             (conn <- psycopg2_connect ;; ret (Some conn))
             (λ e,
                match e with
                | OperationalError msg =>
                    logger_warning "Database not ready (attempt %d/%d): %s"
                      [JNum attempt; JNum retries; JStr msg] ;;;
                    (if bool_decide (attempt < retries)
                     then sleep delay_seconds else ret tt) ;;;
                    ret None
                | _ => raise e
                end) ;;
      match r with
      | Some conn => ret (Some conn)
      | None => connect_attempts db_host db_name db_user db_pass retries delay_seconds rest
      end
  end.

Definition get_db_connection : M (option connection) :=
  db_host <- environ_get "DB_HOST" ;;
  db_name <- environ_get "DB_NAME" ;;
  db_user <- environ_get "DB_USER" ;;
  db_pass <- environ_get "DB_PASS" ;;
  if negb (forallb truthy [db_host; db_name; db_user; db_pass]) then
    logger_error "Database environment variables are not fully set." [] ;;;
    ret None
  else
    let retries := 5 in
    let delay_seconds := 5 in
    r <- connect_attempts db_host db_name db_user db_pass retries delay_seconds
           (range 1 (retries + 1)) ;;
    match r with
    | Some conn => ret (Some conn)
    | None =>
        logger_error "Could not connect to database after %d attempts." [JNum retries] ;;;
        ret None
    end.

(** The error handler registered for [HTTPException]: [e.code] and
    [e.description] are all it reads. *)
Definition handle_http_exception (code : Z) (description : pystr) : response :=
  Response code "application/json" (JObj [(lit "error", JStr description)]).

Definition connection_failed : response :=
  with_status (jsonify (JObj [(lit "error", JStr (lit "Database connection failed"))])) 500.

Definition db_health_check : M response :=
  conn <- get_db_connection ;;
  match conn with
  | None =>
      ret (with_status
             (jsonify (JObj [(lit "status", JStr (lit "error"));
                             (lit "message", JStr (lit "Database connection failed"))]))
             500)
  | Some conn =>
      try_except (close conn) (λ _, ret tt) ;;;
      ret (with_status
             (jsonify (JObj [(lit "status", JStr (lit "ok"));
                             (lit "message", JStr (lit "Database connection successful"))]))
             200)
  end.

Definition index : M response :=
  ret (jsonify
         (JObj [(lit "message", JStr (lit "Welcome to the News API (with Postgres)!"));
                (lit "endpoints",
                 JObj [(lit "list_all_news", JStr (lit "GET /news"));
                       (lit "create_news", JStr (lit "POST /news"));
                       (lit "update_news", JStr (lit "PUT /news/<id>"));
                       (lit "delete_news", JStr (lit "DELETE /news/<id>"));
                       (lit "db_health", JStr (lit "GET /db-health"))])])).

(** A news item as the handlers return it. *)
Definition item_dict (item_id : json) (title content : json) : json :=
  JObj [(lit "id", item_id); (lit "title", title); (lit "content", content)].

(** [dict(r)] for a row of the RealDictCursor. *)
Definition row_dict (r : Z * (json * json)) : json :=
  item_dict (JNum r.1) r.2.1 r.2.2.

(** [except Exception as e:] of [list_news]. *)
Definition list_news_except (e : exn) : M (flow (list json)) :=
  logger_error "Error listing news: %s" [JStr (str_exn e)] ;;;
  ret (Return (with_status (jsonify (JObj [(lit "error", JStr (str_exn e))])) 500)).

Definition list_news_try (conn : connection) : M (list json) :=
  rows <- execute_select_all conn ;;
  ret (map row_dict rows).

Definition list_news : M response :=
  conn <- get_db_connection ;;
  match conn with
  | None => ret connection_failed
  | Some conn =>
      r <- try_finally
             (try_except
                (items <- list_news_try conn ;; ret (Fallthrough items))
                list_news_except)
             (close conn) ;;
      match r with
      | Return resp => ret resp
      | Fallthrough items =>
          ret (with_status
                 (jsonify (JObj [(lit "count", JNum (Z.of_nat (length items)));
                                 (lit "items", JArr items)]))
                 200)
      end
  end.

(** The best-effort rollback of the write handlers:
    [try: conn.rollback()  except Exception: pass]. *)
Definition rollback_quietly (conn : connection) : M unit :=
  try_except (rollback conn) (λ _, ret tt).

(** The condition of the second [if] of [create_news], evaluated left to
    right with Python's short-circuit [or]. *)
Definition title_rejected (payload : json) : M bool :=
  present <- py_contains (lit "title") payload ;;
  if negb present then ret true
  else
    title <- py_getitem payload (lit "title") ;;
    if negb (is_str title) then ret true
    else
      title <- py_getitem payload (lit "title") ;;
      stripped <- py_strip title ;;
      ret (bool_decide (stripped = [])).

Definition create_news_try (conn : connection) (title : pystr) (content : json)
  : M json :=
  new_id <- execute_insert conn (JStr title) content ;;
  commit conn ;;;
  ret (item_dict (JNum new_id) (JStr title) content).

Definition create_news_except (conn : connection) (e : exn) : M (flow json) :=
  logger_error "Error creating news: %s" [JStr (str_exn e)] ;;;
  rollback_quietly conn ;;;
  ret (Return (with_status (jsonify (JObj [(lit "error", JStr (str_exn e))])) 500)).

Definition create_news (req : request) : M response :=
  (if negb (is_json req) then abort 400 "Request must be JSON" else ret tt) ;;;
  payload <- get_json req ;;
  rejected <- title_rejected payload ;;
  (if rejected then abort 400 "Missing or invalid 'title' field" else ret tt) ;;;
  title <- (t <- py_getitem payload (lit "title") ;; py_strip t) ;;
  content <- py_get payload (lit "content") (JStr []) ;;
  conn <- get_db_connection ;;
  match conn with
  | None => ret connection_failed
  | Some conn =>
      r <- try_finally
             (try_except
                (new_item <- create_news_try conn title content ;;
                 ret (Fallthrough new_item))
                (create_news_except conn))
             (close conn) ;;
      match r with
      | Return resp => ret resp
      | Fallthrough new_item => ret (with_status (jsonify new_item) 201)
      end
  end.

Definition update_news_try (conn : connection) (item_id : Z) (payload : json)
  : M json :=
  item <- execute_select_by_id conn item_id ;;
  match item with
  | None => abort 404 "Item not found"
  | Some (current_title, current_content) =>
      title <- py_get payload (lit "title") current_title ;;
      content <- py_get payload (lit "content") current_content ;;
      execute_update conn title content item_id ;;;
      commit conn ;;;
      ret (item_dict (JNum item_id) title content)
  end.

(** [except HTTPException: raise] followed by [except Exception as e:]. *)
Definition update_news_except (conn : connection) (e : exn) : M (flow json) :=
  match e with
  | HTTPException _ _ => raise e
  | _ =>
      logger_error "Error updating news: %s" [JStr (str_exn e)] ;;;
      rollback_quietly conn ;;;
      ret (Return (with_status (jsonify (JObj [(lit "error", JStr (str_exn e))])) 500))
  end.

Definition update_news (item_id : Z) (req : request) : M response :=
  (if negb (is_json req) then abort 400 "Request must be JSON" else ret tt) ;;;
  payload <- get_json req ;;
  conn <- get_db_connection ;;
  match conn with
  | None => ret connection_failed
  | Some conn =>
      r <- try_finally
             (try_except
                (updated_item <- update_news_try conn item_id payload ;;
                 ret (Fallthrough updated_item))
                (update_news_except conn))
             (close conn) ;;
      match r with
      | Return resp => ret resp
      | Fallthrough updated_item => ret (with_status (jsonify updated_item) 200)
      end
  end.

Definition delete_news_try (conn : connection) (item_id : Z) : M unit :=
  deleted <- execute_delete_returning conn item_id ;;
  match deleted with
  | None => abort 404 "Item not found"
  | Some _ => commit conn
  end.

Definition delete_news_except (conn : connection) (e : exn) : M (flow unit) :=
  match e with
  | HTTPException _ _ => raise e
  | _ =>
      logger_error "Error deleting news: %s" [JStr (str_exn e)] ;;;
      rollback_quietly conn ;;;
      ret (Return (with_status (jsonify (JObj [(lit "error", JStr (str_exn e))])) 500))
  end.

Definition delete_news (item_id : Z) : M response :=
  conn <- get_db_connection ;;
  match conn with
  | None => ret connection_failed
  | Some conn =>
      r <- try_finally
             (try_except
                (delete_news_try conn item_id ;;; ret (Fallthrough tt))
                (delete_news_except conn))
             (close conn) ;;
      match r with
      | Return resp => ret resp
      | Fallthrough _ =>
          ret (with_status
                 (jsonify (JObj [(lit "status", JStr (lit "deleted"));
                                 (lit "id", JNum item_id)]))
                 200)
      end
  end.

(** ** The dispatcher *)

Inductive route : Type :=
| GetIndex                      (* GET / *)
| GetDbHealth                   (* GET /db-health *)
| GetNews                       (* GET /news *)
| PostNews                      (* POST /news *)
| PutNews (item_id : Z)         (* PUT /news/<int:item_id> *)
| DeleteNews (item_id : Z).     (* DELETE /news/<int:item_id> *)

Definition view (r : route) (req : request) : M response :=
  match r with
  | GetIndex => index
  | GetDbHealth => db_health_check
  | GetNews => list_news
  | PostNews => create_news req
  | PutNews item_id => update_news item_id req
  | DeleteNews item_id => delete_news item_id
  end.

(** The description of werkzeug's InternalServerError. *)
Definition internal_server_error : pystr :=
  lit "The server encountered an internal error and was unable to complete your request. Either the server is overloaded or there is an error in the application.".

(** Flask runs the view; an [HTTPException] goes to the registered error
    handler, and so does the InternalServerError that stands for any other
    uncaught exception. *)
Definition dispatch (r : route) (req : request) (w : world)
  : response * world * list event :=
  match view r req w with
  | (Ok resp, w', evs) => (resp, w', evs)
  | (Raise (HTTPException code description), w', evs) =>
      (handle_http_exception code description, w', evs)
  | (Raise _, w', evs) => (handle_http_exception 500 internal_server_error, w', evs)
  end.

(** ** Reading a run *)

Definition is_log (ev : event) : bool :=
  match ev with EvLog _ _ _ => true | _ => false end.
Definition is_open (ev : event) : bool :=
  match ev with EvConnect true => true | _ => false end.
Definition is_close (ev : event) : bool :=
  match ev with EvClose => true | _ => false end.
Definition is_rollback (ev : event) : bool :=
  match ev with EvRollback => true | _ => false end.
Definition is_db (ev : event) : bool :=
  match ev with
  | EvExecute _ | EvCommit | EvRollback | EvClose => true
  | _ => false
  end.

(** The run without its log calls. *)
Definition io_events (evs : list event) : list event :=
  List.filter (λ ev, negb (is_log ev)) evs.

(** What the run did on its connection. *)
Definition db_events (evs : list event) : list event := List.filter is_db evs.

(** How many connections the run opened, closed, and rolled back. *)
Definition opens (evs : list event) : nat := length (List.filter is_open evs).
Definition closes (evs : list event) : nat := length (List.filter is_close evs).
Definition rollbacks (evs : list event) : nat := length (List.filter is_rollback evs).

(** How many of the next calls of [psycopg2.connect] are refused. *)
Fixpoint refused (script : list (option pystr)) : nat :=
  match script with
  | Some _ :: script' => S (refused script')
  | _ => 0
  end.

(** [n] refused attempts, each followed by a sleep of [delay] seconds. *)
Definition backoff (delay : Z) (n : nat) : list event :=
  concat (replicate n [EvConnect false; EvSleep delay]).

(** ** Connection acquisition, as the specification words it *)

Definition db_variables : list string := ["DB_HOST"; "DB_NAME"; "DB_USER"; "DB_PASS"]%string.

(** Every variable is set. *)
Definition all_set (w : world) : Prop :=
  Forall (λ name, is_Some (environ w !! name)) db_variables.

(** Every variable is set to a value that is not the empty string. *)
Definition all_nonempty (w : world) : Prop :=
  Forall (λ name, ∃ v, environ w !! name = Some v ∧ v ≠ []) db_variables.

(** At most 5 attempts, 5 seconds of sleep after each refused attempt but
    the last one, the connection of the first accepted attempt, and failure
    after the 5th refusal. *)
Definition retry_protocol (w : world) : Prop :=
  let k := refused (connects w) in
  let '(r, _, evs) := get_db_connection w in
  if decide (k < 5)%nat
  then r = Ok (Some Connection) ∧ io_events evs = backoff 5 k ++ [EvConnect true]
  else r = Ok None ∧ io_events evs = backoff 5 4 ++ [EvConnect false].

(** Failure with no attempt at all. *)
Definition fails_immediately (w : world) : Prop :=
  get_db_connection w
  = (Ok None, w, [EvLog Error "Database environment variables are not fully set." []]).

(** Acquisition succeeds in [w]. *)
Definition acquires (w : world) : Prop :=
  (get_db_connection w).1.1 = Ok (Some Connection).

(** Acquisition fails in [w]. *)
Definition acquire_fails (w : world) : Prop :=
  (get_db_connection w).1.1 = Ok None.

(** No database call raises. *)
Definition reliable (w : world) : Prop := faults w = [].

(** ** Requests, as the specification words them *)

(** The requests that [POST /news] must refuse: the body is not JSON, or
    its title is missing, is not a string, or is empty once trimmed. *)
Inductive refused_create : request → Prop :=
| NotJson req :
    is_json req = false → refused_create req
| Unparseable req :
    is_json req = true → json_body req = None → refused_create req
| TitleMissing req d :
    is_json req = true → json_body req = Some (JObj d) →
    dict_get (lit "title") d = None → refused_create req
| TitleNotString req d v :
    is_json req = true → json_body req = Some (JObj d) →
    dict_get (lit "title") d = Some v → is_str v = false → refused_create req
| TitleBlank req d t :
    is_json req = true → json_body req = Some (JObj d) →
    dict_get (lit "title") d = Some (JStr t) → strip t = [] → refused_create req.

(** A create request with a JSON object whose title is a string that is not
    empty once trimmed. *)
Definition valid_create (req : request) (d : list (pystr * json)) (t : pystr) : Prop :=
  is_json req = true ∧ json_body req = Some (JObj d)
  ∧ dict_get (lit "title") d = Some (JStr t) ∧ strip t ≠ [].

(** An update request with a JSON object. *)
Definition valid_update (req : request) (d : list (pystr * json)) : Prop :=
  is_json req = true ∧ json_body req = Some (JObj d).

(** Every stored item has a title that is a non-empty string. *)
Definition titled (t : gmap Z (json * json)) : Prop :=
  ∀ item_id row, t !! item_id = Some row → ∃ s, row.1 = JStr s ∧ s ≠ [].

(** A value that a TEXT column holds as it is: a string. *)
Definition is_text (v : json) : Prop := ∃ s, v = JStr s.

(** A value that a nullable TEXT column holds as it is: a string or null. *)
Definition is_text_or_null (v : json) : Prop := v = JNull ∨ is_text v.

(** The first database call of the run does not raise. *)
Definition first_call_answers (w : world) : Prop :=
  ∀ msg fs, faults w ≠ Some msg :: fs.

(** The body of an error response. *)
Definition error_body (description : pystr) : json :=
  JObj [(lit "error", JStr description)].

(** Worlds for the examples. *)
Definition environ_ok : gmap string pystr :=
  {[ "DB_HOST"%string := lit "db"; "DB_NAME"%string := lit "news";
     "DB_USER"%string := lit "app"; "DB_PASS"%string := lit "secret" ]}.

Definition environ_empty_password : gmap string pystr :=
  <["DB_PASS"%string := []]> environ_ok.

Definition environ_no_password : gmap string pystr :=
  delete "DB_PASS"%string environ_ok.

Definition hello_table : gmap Z (json * json) :=
  {[ 1 := (JStr (lit "Hello"), JStr (lit "first post")) ]}.

Definition world_up : world := World environ_ok [] [] hello_table hello_table 2.

Definition world_starting : world :=
  World environ_ok [Some (lit "starting up"); Some (lit "starting up"); None] []
    hello_table hello_table 2.

Definition world_down : world :=
  World environ_ok (replicate 5 (Some (lit "refused"))) [] hello_table hello_table 2.

Definition world_empty_password : world :=
  World environ_empty_password [] [] hello_table hello_table 2.

Definition world_no_password : world :=
  World environ_no_password [] [] hello_table hello_table 2.



Definition post_hello : request :=
  Request true (Some (JObj [(lit "title", JStr (lit "  Hello  "))])).

Definition post_blank : request :=
  Request true (Some (JObj [(lit "title", JStr (lit "   "))])).

Definition post_odd_content : request :=
  Request true
    (Some (JObj [(lit "title", JStr (lit "Hello"));
                 (lit "content", JObj [(lit "n", JArr [JNum 1; JNull; JBool true])])])).


Definition put_content : request :=
  Request true (Some (JObj [(lit "content", JStr (lit "x"))])).

Definition put_empty_title : request :=
  Request true (Some (JObj [(lit "title", JStr [])])).

Definition no_body : request := Request false None.

Definition post_null : request := Request true (Some JNull).

(** ** Further vocabulary *)

(** The configuration is complete, the database accepts every connection
    and no database call raises. *)
Definition healthy (w : world) : Prop :=
  all_nonempty w ∧ connects w = [] ∧ faults w = [].

(** The routes that only read. *)
Definition is_read (r : route) : bool :=
  match r with
  | GetIndex | GetDbHealth | GetNews => true
  | _ => false
  end.

Definition is_update (r : route) : bool :=
  match r with PutNews _ => true | _ => false end.

(** The row a request addresses. *)
Definition addressed (r : route) (w : world) : option Z :=
  match r with
  | PostNews => Some (next_id w)
  | PutNews item_id | DeleteNews item_id => Some item_id
  | _ => None
  end.

(** The statuses a route can answer with. *)
Definition statuses (r : route) : list Z :=
  match r with
  | GetIndex => [200]
  | GetDbHealth | GetNews => [200; 500]
  | PostNews => [201; 400; 500]
  | PutNews _ => [200; 400; 404; 500]
  | DeleteNews _ => [200; 404; 500]
  end.

(** What one request can do to the table. *)
Inductive table_step (r : route) (resp : response) (w w' : world) : Prop :=
| Unchanged :
    committed w' = committed w → table_step r resp w w'
| Created s content :
    r = PostNews → status resp = 201 → s ≠ [] →
    committed w !! next_id w = None →
    committed w' = <[next_id w := (JStr s, content)]> (committed w) →
    table_step r resp w w'
| Updated item_id row :
    r = PutNews item_id → status resp = 200 →
    is_Some (committed w !! item_id) →
    committed w' = <[item_id := row]> (committed w) →
    table_step r resp w w'
| Deleted item_id :
    r = DeleteNews item_id → status resp = 200 →
    is_Some (committed w !! item_id) →
    committed w' = delete item_id (committed w) →
    table_step r resp w w'.

(** The world after a sequence of requests, served one after the other. *)
Fixpoint serve (reqs : list (route * request)) (w : world) : world :=
  match reqs with
  | [] => w
  | (r, req) :: reqs' => serve reqs' (dispatch r req w).1.2
  end.

Definition is_attempt (ev : event) : bool :=
  match ev with EvConnect _ => true | _ => false end.
Definition is_refusal (ev : event) : bool :=
  match ev with EvConnect false => true | _ => false end.
Definition is_warning (ev : event) : bool :=
  match ev with EvLog Warning _ _ => true | _ => false end.
Definition is_error_log (ev : event) : bool :=
  match ev with EvLog Error _ _ => true | _ => false end.

(** How many connection attempts the run made, how many were refused, and
    how many warnings and errors it logged. *)
Definition attempts (evs : list event) : nat := length (List.filter is_attempt evs).
Definition refusals (evs : list event) : nat := length (List.filter is_refusal evs).
Definition warnings (evs : list event) : nat := length (List.filter is_warning evs).
Definition errors (evs : list event) : nat := length (List.filter is_error_log evs).

(** The seconds the run slept in total. *)
Fixpoint slept (evs : list event) : Z :=
  match evs with
  | [] => 0
  | EvSleep seconds :: evs' => seconds + slept evs'
  | _ :: evs' => slept evs'
  end.

(** [pre ++ s ++ post] is [t], and [pre] and [post] are white space. *)
Definition trimmed_from (t s : pystr) : Prop :=
  ∃ pre post, t = pre ++ s ++ post
    ∧ Forall (λ c, isspace c = true) pre ∧ Forall (λ c, isspace c = true) post.

(** [s] neither starts nor ends with white space. *)
Definition tight (s : pystr) : Prop :=
  (∀ c, head s = Some c → isspace c = false)
  ∧ (∀ c, last s = Some c → isspace c = false).

Definition world_faulty : world :=
  World environ_ok [] [Some (lit "connection lost"); Some (lit "gone")]
    hello_table hello_table 2.

Definition put_array : request := Request true (Some (JArr [JNum 1])).

Definition put_number_title : request :=
  Request true (Some (JObj [(lit "title", JNum 7)])).

(** * Proof support *)

Arguments get_db_connection : simpl never.
Opaque lit.

Ltac unfold_py :=
  unfold dispatch, view, create_news, update_news, delete_news, list_news,
    db_health_check, index,
    create_news_try, create_news_except, update_news_try, update_news_except,
    delete_news_try, delete_news_except, list_news_try, list_news_except,
    rollback_quietly, title_rejected, get_json, py_contains, py_getitem, py_get,
    py_strip, execute_insert, execute_select_all, execute_select_by_id,
    execute_update, execute_delete_returning, commit, rollback, close, db_call,
    logger_error, logger_warning, emit, abort, raise, ret, bind, try_except,
    try_finally in *.

Lemma db_events_app (evs1 evs2 : list event) :
  db_events (evs1 ++ evs2) = db_events evs1 ++ db_events evs2.
Proof. apply List.filter_app. Qed.

Lemma opens_app (evs1 evs2 : list event) :
  opens (evs1 ++ evs2) = (opens evs1 + opens evs2)%nat.
Proof. unfold opens. by rewrite List.filter_app, length_app. Qed.

Lemma closes_app (evs1 evs2 : list event) :
  closes (evs1 ++ evs2) = (closes evs1 + closes evs2)%nat.
Proof. unfold closes. by rewrite List.filter_app, length_app. Qed.

Lemma rollbacks_app (evs1 evs2 : list event) :
  rollbacks (evs1 ++ evs2) = (rollbacks evs1 + rollbacks evs2)%nat.
Proof. unfold rollbacks. by rewrite List.filter_app, length_app. Qed.

(** A run that does nothing on a connection closes none and rolls back none. *)
Lemma db_events_nil (evs : list event) :
  db_events evs = [] → closes evs = 0%nat ∧ rollbacks evs = 0%nat.
Proof.
  unfold db_events, closes, rollbacks.
  induction evs as [|ev evs IH]; [done|].
  destruct ev; simpl; try done; try apply IH.
Qed.

(** * Connection acquisition *)

Section acquisition.
Variables db_host db_name db_user db_pass : option pystr.
Variables retries delay : Z.

Lemma connect_attempts_spec (m : nat) :
  ∀ (i : Z) (w : world),
    i + Z.of_nat m = retries + 1 →
    let k := refused (connects w) in
    let '(r, _, evs) :=
      connect_attempts db_host db_name db_user db_pass retries delay
        (seqZ i (Z.of_nat m)) w in
    if decide (k < m)%nat
    then r = Ok (Some Connection)
         ∧ io_events evs = backoff delay k ++ [EvConnect true]
    else r = Ok None
         ∧ io_events evs = match m with
                           | O => []
                           | S m' => backoff delay m' ++ [EvConnect false]
                           end.
Proof.
  induction m as [|m IH]; intros i w Hi.
  - simpl. done.
  - rewrite seqZ_cons by lia.
    replace (Z.pred (Z.of_nat (S m))) with (Z.of_nat m) by lia.
    simpl connect_attempts. unfold bind at 1. unfold try_except at 1.
    unfold bind at 1. unfold psycopg2_connect at 1.
    destruct (connects w) as [|[msg|] cs] eqn:Hcs.
    + simpl. done.
    + specialize (IH (Z.succ i) (set_connects cs w) ltac:(lia)).
      simpl in IH.
      unfold logger_warning, sleep, emit, ret, bind.
      unfold io_events in *.
      case_bool_decide; simpl;
        destruct (connect_attempts db_host db_name db_user db_pass retries delay
                    (seqZ (Z.succ i) (Z.of_nat m)) (set_connects cs w))
          as [[r' w'] evs']; simpl.
      * destruct m as [|m]; [lia|].
        repeat case_decide; try lia; destruct IH as [-> ->]; done.
      * destruct m as [|m]; [|lia]. simpl in *. destruct IH as [-> ->]. done.
    + simpl. done.
Qed.

(** The loop never raises, touches nothing but the connection script and
    the view of the connection it opens, and opens at most one. *)
Lemma connect_attempts_frame (attempts : list Z) :
  ∀ w : world,
    let '(r, w', evs) :=
      connect_attempts db_host db_name db_user db_pass retries delay attempts w in
    db_events evs = [] ∧
    ∃ cs,
      (r = Ok (Some Connection)
       ∧ w' = set_working (committed w) (set_connects cs w)
       ∧ opens evs = 1%nat)
      ∨ (r = Ok None ∧ w' = set_connects cs w ∧ opens evs = 0%nat).
Proof.
  induction attempts as [|attempt rest IH]; intros w.
  - simpl. split; [done|]. exists (connects w). right. by destruct w.
  - simpl connect_attempts. unfold bind at 1. unfold try_except at 1.
    unfold bind at 1. unfold psycopg2_connect at 1.
    destruct (connects w) as [|[msg|] cs] eqn:Hcs.
    + simpl. split; [done|]. exists []. left.
      destruct w; simpl in *; subst. done.
    + specialize (IH (set_connects cs w)).
      unfold logger_warning, sleep, emit, ret, bind.
      case_bool_decide; simpl;
        destruct (connect_attempts db_host db_name db_user db_pass retries delay
                    rest (set_connects cs w)) as [[r' w'] evs'];
        destruct IH as (Hdb & cs' & Hrun); simpl;
        (split; [done|]); exists cs';
        (destruct Hrun as [(-> & -> & Hn)|(-> & -> & Hn)]; [left|right]);
        destruct w; done.
    + simpl. split; [done|]. exists cs. left.
      destruct w; simpl in *; subst. done.
Qed.
End acquisition.

(** The test of the first [if] of [get_db_connection]. *)
Lemma all_nonempty_truthy (w : world) :
  all_nonempty w ↔
  forallb truthy [environ w !! "DB_HOST"%string; environ w !! "DB_NAME"%string;
                  environ w !! "DB_USER"%string; environ w !! "DB_PASS"%string] = true.
Proof.
  unfold all_nonempty, db_variables. rewrite !Forall_cons, Forall_nil. simpl.
  rewrite !andb_true_iff.
  assert (Hone : ∀ o : option pystr, (∃ v, o = Some v ∧ v ≠ []) ↔ truthy o = true).
  { intros [[|c s]|]; simpl; split; try done.
    - intros (v & [= <-] & Hv). done.
    - intros _. eexists. split; done.
    - intros (v & [=] & _). }
  rewrite !Hone. tauto.
Qed.

Lemma get_db_connection_unconfigured (w : world) :
  ¬ all_nonempty w → fails_immediately w.
Proof.
  rewrite all_nonempty_truthy. intros Hconf%not_true_is_false.
  unfold fails_immediately, get_db_connection, environ_get, bind. simpl in *.
  rewrite Hconf. simpl. done.
Qed.

Lemma get_db_connection_configured (w : world) :
  all_nonempty w → retry_protocol w.
Proof.
  rewrite all_nonempty_truthy. intros Hconf.
  pose proof (connect_attempts_spec (environ w !! "DB_HOST"%string)
                (environ w !! "DB_NAME"%string) (environ w !! "DB_USER"%string)
                (environ w !! "DB_PASS"%string) 5 5 5 1 w eq_refl) as Hloop.
  unfold retry_protocol, get_db_connection, environ_get, range, bind.
  cbv beta iota zeta. rewrite Hconf.
  change (5 + 1 - 1) with (Z.of_nat 5).
  cbv beta iota zeta in Hloop.
  unfold negb. cbv beta iota.
  destruct (connect_attempts _ _ _ _ 5 5 (seqZ 1 (Z.of_nat 5)) w) as [[r w'] evs].
  case_decide as Hk.
  - destruct Hloop as [-> Hio]. unfold ret. rewrite app_nil_r. done.
  - destruct Hloop as [-> Hio]. unfold logger_error, emit, ret. simpl.
    unfold io_events in *. rewrite List.filter_app, Hio. done.
Qed.

(** Acquisition never raises, changes nothing but the connection script and
    the view of the connection it opens, does nothing on a connection, and
    opens one connection exactly when it returns one. *)
Lemma get_db_connection_frame (w : world) :
  let '(r, w', evs) := get_db_connection w in
  db_events evs = [] ∧
  ∃ cs,
    (r = Ok (Some Connection)
     ∧ w' = set_working (committed w) (set_connects cs w)
     ∧ opens evs = 1%nat)
    ∨ (r = Ok None ∧ w' = set_connects cs w ∧ opens evs = 0%nat).
Proof.
  unfold get_db_connection, environ_get, bind. cbv beta iota zeta.
  destruct (negb (forallb truthy _)).
  - simpl. split; [done|]. exists (connects w). right. by destruct w.
  - pose proof (connect_attempts_frame (environ w !! "DB_HOST"%string)
                  (environ w !! "DB_NAME"%string) (environ w !! "DB_USER"%string)
                  (environ w !! "DB_PASS"%string) 5 5 (range 1 (5 + 1)) w) as Hloop.
    destruct (connect_attempts _ _ _ _ 5 5 (range 1 (5 + 1)) w) as [[r w'] evs].
    destruct Hloop as (Hdb & cs & [(-> & -> & Hn)|(-> & -> & Hn)]).
    + unfold ret. simpl. rewrite !app_nil_r. split; [done|]. exists cs. by left.
    + unfold logger_error, emit, ret. simpl.
      unfold db_events, opens in *. rewrite !List.filter_app, Hdb. simpl.
      split; [done|]. exists cs. right. rewrite length_app, Hn. done.
Qed.

(** What a handler finds after a successful acquisition. *)
Lemma acquires_inv (w : world) :
  acquires w →
  ∃ cs evs,
    get_db_connection w
    = (Ok (Some Connection), set_working (committed w) (set_connects cs w), evs)
    ∧ db_events evs = [] ∧ opens evs = 1%nat.
Proof.
  unfold acquires. pose proof (get_db_connection_frame w) as Hf.
  destruct (get_db_connection w) as [[r w'] evs]. simpl. intros ->.
  destruct Hf as (Hdb & cs & [(_ & -> & Hn)|([=] & _)]). eauto.
Qed.

(** What a handler finds after a failed acquisition. *)
Lemma acquire_fails_inv (w : world) :
  acquire_fails w →
  ∃ cs evs,
    get_db_connection w = (Ok None, set_connects cs w, evs)
    ∧ db_events evs = [] ∧ opens evs = 0%nat.
Proof.
  unfold acquire_fails. pose proof (get_db_connection_frame w) as Hf.
  destruct (get_db_connection w) as [[r w'] evs]. simpl. intros ->.
  destruct Hf as (Hdb & cs & [([=] & _)|(_ & -> & Hn)]). eauto.
Qed.

(** Case analysis over the paths of a handler. *)

Ltac acquire_step :=
  match goal with
  | |- context [get_db_connection ?w] =>
      let Hf := fresh "Hf" in
      let Hdb := fresh "Hdb" in
      let Hn := fresh "Hn" in
      pose proof (get_db_connection_frame w) as Hf;
      destruct (get_db_connection w) as [[? ?] ?];
      destruct Hf as (Hdb & ? & [(-> & -> & Hn)|(-> & -> & Hn)]);
      apply db_events_nil in Hdb as [? ?];
      destruct w; simpl
  end.

Ltac case_step :=
  match goal with
  | |- context [match ?x with _ => _ end] => is_var x; destruct x; simpl
  | |- context [match ?m !! ?k with _ => _ end] => destruct (m !! k) eqn:?; simpl
  | |- context [match dict_get ?k ?d with _ => _ end] =>
      destruct (dict_get k d) eqn:?; simpl
  | |- context [if ?b then _ else _] => destruct b eqn:?; simpl
  end.

Ltac count_events :=
  rewrite ?closes_app, ?opens_app, ?rollbacks_app, ?last_app;
  repeat match goal with H : _ = _ :> nat |- _ => rewrite H; clear H end;
  unfold closes, opens, rollbacks; simpl;
  first [done | lia | split; [done|lia]
        | split; [done|split; [lia|first [done|intros; lia]]]].

(** C1, as amended: with DB_HOST, DB_NAME, DB_USER and DB_PASS all set to
    non-empty values, [get_db_connection] makes at most 5 attempts, sleeps
    5 seconds after each refused attempt but the 5th, returns the
    connection of the first accepted attempt and fails after the 5th
    refusal; when one of the four is absent or empty it fails at once,
    with no attempt and no sleep. *)
Theorem get_db_connection_protocol (w : world) :
  (all_nonempty w → retry_protocol w) ∧ (¬ all_nonempty w → fails_immediately w).
Proof.
  split; [apply get_db_connection_configured | apply get_db_connection_unconfigured].
Qed.

Lemma get_db_connection_protocol_witness :
  (all_nonempty world_starting ∧ retry_protocol world_starting)
  ∧ (all_nonempty world_down ∧ retry_protocol world_down)
  ∧ (¬ all_nonempty world_no_password ∧ fails_immediately world_no_password).
Proof.
  assert (Hstarting : all_nonempty world_starting)
    by (apply all_nonempty_truthy; vm_compute; reflexivity).
  assert (Hdown : all_nonempty world_down)
    by (apply all_nonempty_truthy; vm_compute; reflexivity).
  assert (Hmissing : ¬ all_nonempty world_no_password)
    by (rewrite all_nonempty_truthy; vm_compute; discriminate).
  split; [|split]; (split; [assumption|]).
  - exact (proj1 (get_db_connection_protocol world_starting) Hstarting).
  - exact (proj1 (get_db_connection_protocol world_down) Hdown).
  - exact (proj2 (get_db_connection_protocol world_no_password) Hmissing).
Defined.

(** C1 as stated fails when a variable is set to the empty string: all
    four are set and the database accepts the first attempt, yet no attempt
    is made and no connection is returned. *)
Lemma get_db_connection_empty_password :
  all_set world_empty_password
  ∧ refused (connects world_empty_password) = 0%nat
  ∧ get_db_connection world_empty_password
    = (Ok None, world_empty_password,
       [EvLog Error "Database environment variables are not fully set." []])
  ∧ ¬ retry_protocol world_empty_password.
Proof.
  split; [|split; [|split]].
  - unfold all_set, db_variables. repeat constructor; vm_compute; eauto.
  - reflexivity.
  - vm_compute. reflexivity.
  - unfold retry_protocol. vm_compute. intros [[=] _].
Qed.

(** * The handlers on a database that answers *)

(** C9: a valid create request is answered 201 with the object made of the
    id the store assigned, the trimmed title, and the content of the
    request or the empty string when it has none; when that content is a
    string or null, the stored row holds the same title and content. *)
Theorem create_news_result (w : world) (req : request)
    (d : list (pystr * json)) (t : pystr) :
  valid_create req d t →
  acquires w → reliable w → committed w !! next_id w = None →
  let title := JStr (strip t) in
  let content := default (JStr []) (dict_get (lit "content") d) in
  let '(resp, w', evs) := dispatch PostNews req w in
  resp = Response 201 "application/json"
           (JObj [(lit "id", JNum (next_id w)); (lit "title", title);
                  (lit "content", content)])
  ∧ db_events evs = [EvExecute (InsertNews title content); EvCommit; EvClose]
  ∧ (dict_get (lit "content") d = None → content = JStr [])
  ∧ (is_text_or_null content →
     committed w' = <[next_id w := (title, content)]> (committed w)).
Proof.
  intros (Hjson & Hbody & Htitle & Hstrip)
    (cs & evs1 & Hacq & Hdb & _)%acquires_inv Hrel Hfresh.
  destruct req as [isj jb]. simpl in *. subst.
  unfold_py. simpl. rewrite Htitle. simpl.
  rewrite bool_decide_eq_false_2 by done. simpl.
  rewrite Hacq.
  destruct w as [env con fl cm wk nid]. unfold reliable in Hrel. simpl in *. subst.
  rewrite Hfresh. simpl. rewrite db_events_app, Hdb.
  split; [done|]. split; [done|]. split; [by intros ->|done].
Qed.

Lemma create_news_result_witness :
  valid_create post_hello [(lit "title", JStr (lit "  Hello  "))] (lit "  Hello  ")
  ∧ acquires world_up ∧ reliable world_up
  ∧ committed world_up !! next_id world_up = None
  ∧ (let '(resp, w', _) := dispatch PostNews post_hello world_up in
     resp = Response 201 "application/json"
              (JObj [(lit "id", JNum 2); (lit "title", JStr (lit "Hello"));
                     (lit "content", JStr [])])
     ∧ committed w' !! 2 = Some (JStr (lit "Hello"), JStr [])).
Proof.
  assert (Hreq : valid_create post_hello
                   [(lit "title", JStr (lit "  Hello  "))] (lit "  Hello  "))
    by (repeat split; vm_compute; congruence).
  assert (Hacq : acquires world_up) by (vm_compute; reflexivity).
  assert (Hrel : reliable world_up) by reflexivity.
  assert (Hfresh : committed world_up !! next_id world_up = None)
    by (vm_compute; reflexivity).
  do 4 (split; [assumption|]).
  pose proof (create_news_result world_up post_hello _ _ Hreq Hacq Hrel Hfresh) as H.
  destruct (dispatch PostNews post_hello world_up) as [[resp w'] evs].
  destruct H as (Hresp & _ & _ & Hstore).
  split; [exact Hresp|]. rewrite Hstore; [vm_compute; reflexivity|].
  right. eexists. reflexivity.
Defined.

(** C3: an update of an existing item reads the row, then writes the fields
    of the body over it, commits, and answers 200 with the object made of
    the id and the merged title and content; a field the body does not name
    keeps its prior value, in the answer and, the merged title being a
    string and the merged content a string or null, in the stored row. *)
Theorem update_news_partial (w : world) (item_id : Z) (req : request)
    (d : list (pystr * json)) (current_title current_content : json) :
  valid_update req d →
  committed w !! item_id = Some (current_title, current_content) →
  acquires w → reliable w →
  let title := default current_title (dict_get (lit "title") d) in
  let content := default current_content (dict_get (lit "content") d) in
  let '(resp, w', evs) := dispatch (PutNews item_id) req w in
  resp = Response 200 "application/json"
           (JObj [(lit "id", JNum item_id); (lit "title", title);
                  (lit "content", content)])
  ∧ db_events evs = [EvExecute (SelectNewsById item_id);
                     EvExecute (UpdateNews title content item_id);
                     EvCommit; EvClose]
  ∧ (dict_get (lit "title") d = None → title = current_title)
  ∧ (dict_get (lit "content") d = None → content = current_content)
  ∧ (is_text title → is_text_or_null content →
     committed w' = <[item_id := (title, content)]> (committed w)).
Proof.
  intros (Hjson & Hbody) Hrow (cs & evs1 & Hacq & Hdb & _)%acquires_inv Hrel.
  destruct req as [isj jb]. simpl in *. subst.
  unfold_py. simpl. rewrite Hacq.
  destruct w as [env con fl cm wk nid]. unfold reliable in Hrel. simpl in *. subst.
  rewrite Hrow. simpl. rewrite Hrow. simpl. rewrite db_events_app, Hdb.
  split; [done|]. split; [done|].
  split; [by intros ->|]. split; [by intros ->|done].
Qed.

Lemma update_news_partial_witness :
  valid_update put_content [(lit "content", JStr (lit "x"))]
  ∧ committed world_up !! 1 = Some (JStr (lit "Hello"), JStr (lit "first post"))
  ∧ acquires world_up ∧ reliable world_up
  ∧ (let '(resp, w', _) := dispatch (PutNews 1) put_content world_up in
     resp = Response 200 "application/json"
              (JObj [(lit "id", JNum 1); (lit "title", JStr (lit "Hello"));
                     (lit "content", JStr (lit "x"))])
     ∧ committed w' !! 1 = Some (JStr (lit "Hello"), JStr (lit "x"))).
Proof.
  assert (Hreq : valid_update put_content [(lit "content", JStr (lit "x"))])
    by (split; reflexivity).
  assert (Hrow : committed world_up !! 1
                 = Some (JStr (lit "Hello"), JStr (lit "first post")))
    by (vm_compute; reflexivity).
  assert (Hacq : acquires world_up) by (vm_compute; reflexivity).
  assert (Hrel : reliable world_up) by reflexivity.
  do 4 (split; [assumption|]).
  pose proof (update_news_partial world_up 1 put_content _ _ _ Hreq Hrow Hacq Hrel) as H.
  destruct (dispatch (PutNews 1) put_content world_up) as [[resp w'] evs].
  destruct H as (Hresp & _ & _ & _ & Hstore).
  split; [exact Hresp|].
  rewrite Hstore; [vm_compute; reflexivity|eexists; reflexivity|].
  right. eexists. reflexivity.
Defined.

(** C4: deleting an id that is not in the store answers 404 and leaves the
    store as it was; deleting an id that is there removes the row, commits,
    and answers 200 with the status and the id. *)
Theorem delete_news_result (w : world) (item_id : Z) (req : request) :
  acquires w → reliable w →
  let '(resp, w', evs) := dispatch (DeleteNews item_id) req w in
  match committed w !! item_id with
  | None =>
      resp = Response 404 "application/json" (error_body (lit "Item not found"))
      ∧ committed w' = committed w
      ∧ db_events evs = [EvExecute (DeleteNewsReturning item_id); EvClose]
  | Some _ =>
      resp = Response 200 "application/json"
               (JObj [(lit "status", JStr (lit "deleted")); (lit "id", JNum item_id)])
      ∧ committed w' = delete item_id (committed w)
      ∧ db_events evs = [EvExecute (DeleteNewsReturning item_id); EvCommit; EvClose]
  end.
Proof.
  intros (cs & evs1 & Hacq & Hdb & _)%acquires_inv Hrel.
  unfold_py. simpl. rewrite Hacq.
  destruct w as [env con fl cm wk nid]. unfold reliable in Hrel. simpl in *. subst.
  destruct (cm !! item_id) as [row|] eqn:Hrow; simpl;
    rewrite db_events_app, Hdb; done.
Qed.

Lemma delete_news_result_witness :
  acquires world_up ∧ reliable world_up
  ∧ (let '(resp, w', _) := dispatch (DeleteNews 7) no_body world_up in
     status resp = 404 ∧ committed w' = committed world_up)
  ∧ (let '(resp, w', _) := dispatch (DeleteNews 1) no_body world_up in
     status resp = 200 ∧ committed w' !! 1 = None).
Proof.
  assert (Hacq : acquires world_up) by (vm_compute; reflexivity).
  assert (Hrel : reliable world_up) by reflexivity.
  do 2 (split; [assumption|]). split.
  - pose proof (delete_news_result world_up 7 no_body Hacq Hrel) as H.
    destruct (dispatch (DeleteNews 7) no_body world_up) as [[resp w'] evs].
    destruct H as (-> & Hstore & _).
    split; [reflexivity|exact Hstore].
  - pose proof (delete_news_result world_up 1 no_body Hacq Hrel) as H.
    destruct (dispatch (DeleteNews 1) no_body world_up) as [[resp w'] evs].
    destruct H as (-> & Hstore & _).
    split; [reflexivity|]. rewrite Hstore. vm_compute. reflexivity.
Defined.



(** X22: a create request whose body is not JSON, or is a JSON object whose
    title is missing, is not a string, or is empty once trimmed, is answered
    400; nothing is done before that: no connection is attempted, no
    statement is sent, and the state is the one the request found. *)
Lemma create_news_validation (w : world) (req : request) :
  refused_create req →
  let '(resp, w', evs) := dispatch PostNews req w in
  status resp = 400 ∧ content_type resp = "application/json"%string
  ∧ (∃ description, body resp = error_body description)
  ∧ w' = w ∧ evs = [].
Proof.
  intros Hbad. unfold_py.
  destruct Hbad as [req Hj|req Hj Hb|req d Hj Hb Ht|req d v Hj Hb Ht Hv|req d t Hj Hb Ht Hs];
    destruct req as [isj jb]; simpl in *; subst; simpl;
    rewrite ?Ht; simpl; rewrite ?Hv, ?Hs; simpl;
    (split; [done|split; [done|split; [eexists; reflexivity|done]]]).
Qed.

Lemma create_news_validation_examples :
  (let '(resp, w', evs) := dispatch PostNews post_blank world_up in
   status resp = 400 ∧ w' = world_up ∧ evs = [])
  ∧ (let '(resp, w', evs) := dispatch PostNews no_body world_down in
     status resp = 400 ∧ w' = world_down ∧ evs = []).
Proof.
  split.
  - pose proof (create_news_validation world_up post_blank) as H.
    destruct (dispatch PostNews post_blank world_up) as [[resp w'] evs].
    destruct H as (? & _ & _ & ? & ?); [|done].
    apply (TitleBlank _ [(lit "title", JStr (lit "   "))] (lit "   "));
      vm_compute; reflexivity.
  - pose proof (create_news_validation world_down no_body) as H.
    destruct (dispatch PostNews no_body world_down) as [[resp w'] evs].
    destruct H as (? & _ & _ & ? & ?); [|done].
    apply NotJson. reflexivity.
Defined.

(** C5 fails on a JSON body that is not an object.  The body [null] has no
    title, yet the answer is 500: ["title" not in payload] raises TypeError,
    no handler catches it, and Flask answers with its InternalServerError.
    No connection is attempted and no row is created. *)
Lemma create_news_null_body :
  dispatch PostNews post_null world_up
  = (Response 500 "application/json" (error_body internal_server_error), world_up, []).
Proof. vm_compute. reflexivity. Qed.

(** * The handlers when acquisition fails *)

(** C6: when acquisition fails, GET /news and DELETE /news/{id} answer 500
    with the JSON object {"error": "Database connection failed"}, and so do
    POST /news and PUT /news/{id} whenever the handler gets as far as
    acquisition: on a valid create request, on an update request whose body
    parses, and in general on every request but those answered before
    anything happened (a failed acquisition leaves at least its error in
    the log, so a run without events made none); GET /db-health answers 500
    with its status-error body; GET / answers 200 whatever the state of the
    database. *)
Theorem acquisition_failure_responses (w : world) (req : request) (item_id : Z) :
  let failed :=
    Response 500 "application/json"
      (JObj [(lit "error", JStr (lit "Database connection failed"))]) in
  (acquire_fails w →
     (dispatch GetNews req w).1.1 = failed
     ∧ (∀ d t, valid_create req d t → (dispatch PostNews req w).1.1 = failed)
     ∧ (let '(resp, _, evs) := dispatch PostNews req w in
        evs = [] ∨ resp = failed)
     ∧ (∀ payload, is_json req = true → json_body req = Some payload →
          (dispatch (PutNews item_id) req w).1.1 = failed)
     ∧ (let '(resp, _, evs) := dispatch (PutNews item_id) req w in
        evs = [] ∨ resp = failed)
     ∧ (dispatch (DeleteNews item_id) req w).1.1 = failed
     ∧ (dispatch GetDbHealth req w).1.1
       = Response 500 "application/json"
           (JObj [(lit "status", JStr (lit "error"));
                  (lit "message", JStr (lit "Database connection failed"))]))
  ∧ status (dispatch GetIndex req w).1.1 = 200.
Proof.
  intros failed. split; [|done].
  intros (cs & evs1 & Hacq & _)%acquire_fails_inv.
  destruct req as [isj jb]. split; [|split; [|split; [|split; [|split; [|split]]]]].
  - unfold_py. rewrite Hacq. done.
  - intros d t (Hjson & Hbody & Htitle & Hstrip). simpl in *. subst.
    unfold_py. simpl. rewrite Htitle. simpl.
    rewrite bool_decide_eq_false_2 by done. simpl. rewrite Hacq. done.
  - unfold_py. simpl. repeat case_step; rewrite ?Hacq; simpl; auto.
  - intros payload Hjson Hbody. simpl in *. subst.
    unfold_py. simpl. rewrite Hacq. done.
  - unfold_py. simpl. repeat case_step; rewrite ?Hacq; simpl; auto.
  - unfold_py. rewrite Hacq. done.
  - unfold_py. rewrite Hacq. done.
Qed.

Lemma acquisition_failure_responses_witness :
  let failed :=
    Response 500 "application/json"
      (JObj [(lit "error", JStr (lit "Database connection failed"))]) in
  acquire_fails world_down ∧ acquire_fails world_no_password
  ∧ (dispatch GetNews post_hello world_down).1.1 = failed
  ∧ (dispatch PostNews post_hello world_down).1.1 = failed
  ∧ (dispatch (PutNews 1) post_hello world_no_password).1.1 = failed
  ∧ (dispatch (DeleteNews 1) post_hello world_no_password).1.1 = failed
  ∧ status (dispatch GetDbHealth post_hello world_down).1.1 = 500.
Proof.
  intros failed.
  assert (Hdown : acquire_fails world_down) by (vm_compute; reflexivity).
  assert (Hmissing : acquire_fails world_no_password) by (vm_compute; reflexivity).
  do 2 (split; [assumption|]).
  destruct (acquisition_failure_responses world_down post_hello 1)
    as [Hfail _].
  destruct (Hfail Hdown) as (Hlist & Hpost & _ & _ & _ & _ & Hhealth).
  destruct (acquisition_failure_responses world_no_password post_hello 1)
    as [Hfail' _].
  destruct (Hfail' Hmissing) as (_ & _ & _ & Hput & _ & Hdel & _).
  split; [|split; [|split; [|split]]].
  - exact Hlist.
  - apply (Hpost [(lit "title", JStr (lit "  Hello  "))] (lit "  Hello  ")).
    repeat split; vm_compute; congruence.
  - apply (Hput (JObj [(lit "title", JStr (lit "  Hello  "))])); reflexivity.
  - exact Hdel.
  - rewrite Hhealth. reflexivity.
Defined.

(** * Every path through a handler *)

(** C8: on every path through every handler (success, abort, database
    exception, refused connection), the run closes exactly as many
    connections as it opened, which is at most one, and when it opened one
    the close is the last thing it does. *)
Theorem connection_released_exactly_once (r : route) (req : request) (w : world) :
  let '(_, _, evs) := dispatch r req w in
  closes evs = opens evs ∧ (opens evs ≤ 1)%nat
  ∧ (opens evs = 1%nat → last evs = Some EvClose).
Proof.
  destruct r; unfold_py; simpl.
  - count_events.
  - acquire_step; repeat case_step; count_events.
  - acquire_step; repeat case_step; count_events.
  - destruct req; simpl; repeat case_step; try acquire_step; repeat case_step;
      count_events.
  - destruct req; simpl; repeat case_step; try acquire_step; repeat case_step;
      count_events.
  - acquire_step; repeat case_step; count_events.
Qed.

(** C7: an abort raised in the [try] block of [update_news] or of
    [delete_news] passes the [except] clauses unchanged (the blocks of
    [create_news] and [list_news] raise none); and whenever an abort leaves
    a view, no rollback was made in that run, the abort is a 400 or a 404,
    and the response is the JSON object with the abort's description under
    "error", with content type application/json and the abort's status. *)
Theorem aborts_reach_the_error_translator :
  (∀ conn item_id payload w code description w' evs,
     update_news_try conn item_id payload w
     = (Raise (HTTPException code description), w', evs) →
     try_except
       (updated_item <- update_news_try conn item_id payload ;;
        ret (Fallthrough updated_item))
       (update_news_except conn) w
     = (Raise (HTTPException code description), w', evs))
  ∧ (∀ conn item_id w code description w' evs,
       delete_news_try conn item_id w
       = (Raise (HTTPException code description), w', evs) →
       try_except
         (delete_news_try conn item_id ;;; ret (Fallthrough tt))
         (delete_news_except conn) w
       = (Raise (HTTPException code description), w', evs))
  ∧ (∀ conn title content w code description,
       (create_news_try conn title content w).1.1
       ≠ Raise (HTTPException code description))
  ∧ (∀ conn w code description,
       (list_news_try conn w).1.1 ≠ Raise (HTTPException code description))
  ∧ (∀ r req w code description,
       (view r req w).1.1 = Raise (HTTPException code description) →
       let '(resp, _, evs) := dispatch r req w in
       resp = Response code "application/json" (error_body description)
       ∧ (code = 400 ∨ code = 404)
       ∧ rollbacks evs = 0%nat).
Proof.
  split; [|split; [|split; [|split]]].
  - intros conn item_id payload w code description w' evs Hrun.
    unfold try_except, bind. rewrite Hrun. simpl. by rewrite app_nil_r.
  - intros conn item_id w code description w' evs Hrun.
    unfold try_except, bind. rewrite Hrun. simpl. by rewrite app_nil_r.
  - intros conn title content w code description.
    unfold_py. destruct w. simpl. repeat case_step; done.
  - intros conn w code description.
    unfold_py. destruct w. simpl. repeat case_step; done.
  - intros r req w code description.
    unfold dispatch.
    destruct r; unfold_py; simpl; destruct req; simpl.
    + done.
    + acquire_step; repeat case_step; done.
    + acquire_step; repeat case_step; done.
    + repeat case_step; try acquire_step; repeat case_step;
        try done; intros [= <- <-]; (split; [done|split; [auto|count_events]]).
    + repeat case_step; try acquire_step; repeat case_step;
        try done; intros [= <- <-]; (split; [done|split; [auto|count_events]]).
    + acquire_step; repeat case_step;
        try done; intros [= <- <-]; (split; [done|split; [auto|count_events]]).
Qed.

Lemma aborts_reach_the_error_translator_witness :
  (view (PutNews 7) put_content world_up).1.1
  = Raise (HTTPException 404 (lit "Item not found"))
  ∧ (dispatch (PutNews 7) put_content world_up).1.1
    = Response 404 "application/json" (error_body (lit "Item not found"))
  ∧ rollbacks (dispatch (PutNews 7) put_content world_up).2 = 0%nat
  ∧ (view PostNews post_blank world_up).1.1
    = Raise (HTTPException 400 (lit "Missing or invalid 'title' field"))
  ∧ (dispatch PostNews post_blank world_up).1.1
    = Response 400 "application/json"
        (error_body (lit "Missing or invalid 'title' field")).
Proof.
  assert (Hput : (view (PutNews 7) put_content world_up).1.1
                 = Raise (HTTPException 404 (lit "Item not found")))
    by (vm_compute; reflexivity).
  assert (Hpost : (view PostNews post_blank world_up).1.1
                  = Raise (HTTPException 400 (lit "Missing or invalid 'title' field")))
    by (vm_compute; reflexivity).
  destruct aborts_reach_the_error_translator as (_ & _ & _ & _ & Hview).
  pose proof (Hview (PutNews 7) put_content world_up _ _ Hput) as Hput'.
  pose proof (Hview PostNews post_blank world_up _ _ Hpost) as Hpost'.
  destruct (dispatch (PutNews 7) put_content world_up) as [[resp1 w1] evs1].
  destruct (dispatch PostNews post_blank world_up) as [[resp2 w2] evs2].
  destruct Hput' as (-> & _ & Hroll). destruct Hpost' as (-> & _ & _).
  split; [exact Hput|]. split; [reflexivity|]. split; [exact Hroll|].
  split; [exact Hpost|reflexivity].
Defined.

(** * The title invariant *)

Lemma titled_insert (t : gmap Z (json * json)) (item_id : Z) (s : pystr) (content : json) :
  s ≠ [] → titled t → titled (<[item_id := (JStr s, content)]> t).
Proof.
  intros Hs Ht k row. rewrite lookup_insert. case_decide.
  - intros [= <-]. eauto.
  - apply Ht.
Qed.

Lemma titled_delete (t : gmap Z (json * json)) (item_id : Z) :
  titled t → titled (delete item_id t).
Proof.
  intros Ht k row. rewrite lookup_delete. case_decide; [done|]. apply Ht.
Qed.

(** Whatever the request and whatever the database does, [create_news]
    keeps every stored title a non-empty string. *)
Lemma create_news_keeps_titles (w : world) (req : request) :
  titled (committed w) → titled (committed (dispatch PostNews req w).1.2).
Proof.
  intros Ht. unfold_py. destruct req; simpl.
  repeat case_step; try done; acquire_step; repeat case_step; try done;
    simpl in *; apply titled_insert; try done;
    eapply bool_decide_eq_false_1; eassumption.
Qed.

(** So does [delete_news]. *)
Lemma delete_news_keeps_titles (w : world) (item_id : Z) (req : request) :
  titled (committed w) → titled (committed (dispatch (DeleteNews item_id) req w).1.2).
Proof.
  intros Ht. unfold_py. simpl.
  acquire_step; repeat case_step; try done; simpl in *; by apply titled_delete.
Qed.

(** C2 fails on [update_news]: an update whose body gives the empty string
    as title is answered 200 and the stored title becomes empty. *)
Lemma update_news_stores_empty_title :
  titled (committed world_up)
  ∧ (let '(resp, w', _) := dispatch (PutNews 1) put_empty_title world_up in
     status resp = 200
     ∧ committed w' !! 1 = Some (JStr [], JStr (lit "first post"))
     ∧ ¬ titled (committed w')).
Proof.
  split.
  - intros k row. unfold world_up, hello_table. simpl.
    intros [<- <-]%lookup_singleton_Some. eexists. split; [done|]. vm_compute. done.
  - destruct (dispatch (PutNews 1) put_empty_title world_up) as [[resp w'] evs] eqn:Hrun.
    vm_compute in Hrun. injection Hrun as <- <- <-.
    split; [reflexivity|]. split; [vm_compute; reflexivity|].
    intros Ht. destruct (Ht 1 (JStr [], JStr (lit "first post"))) as (s & Hs & Hne).
    + vm_compute. reflexivity.
    + simpl in Hs. injection Hs as <-. apply Hne. reflexivity.
Qed.

(** * Beyond the claims *)

(** ** A database that is up *)

Global Instance row_le_total : Total row_le.
Proof. intros r1 r2. unfold row_le. lia. Qed.
Global Instance row_le_trans : Transitive row_le.
Proof. intros r1 r2 r3. unfold row_le. lia. Qed.

Lemma healthy_acquire (w : world) :
  healthy w →
  get_db_connection w
  = (Ok (Some Connection), set_working (committed w) w, [EvConnect true]).
Proof.
  intros (Hconf%all_nonempty_truthy & Hcon & _).
  unfold get_db_connection, environ_get, bind. cbv beta iota zeta.
  rewrite Hconf. unfold negb. cbv beta iota.
  change (range 1 (5 + 1)) with (1 :: range 2 (5 + 1)).
  simpl connect_attempts. unfold bind, try_except, psycopg2_connect, ret.
  rewrite Hcon. destruct w. simpl in *. subst. done.
Qed.

Lemma healthy_acquires (w : world) : healthy w → acquires w ∧ reliable w.
Proof.
  intros Hh. split.
  - unfold acquires. by rewrite (healthy_acquire _ Hh).
  - apply Hh.
Qed.

Lemma healthy_after (w : world) (cm wk : gmap Z (json * json)) (nid : Z) :
  healthy w → healthy (World (environ w) [] [] cm wk nid).
Proof. intros (Hconf & _ & _). done. Qed.

Ltac run_healthy Hh :=
  unfold_py; simpl; rewrite ?(healthy_acquire _ Hh);
  let Hc := fresh in let Hf := fresh in
  destruct Hh as (_ & Hc & Hf);
  match goal with w : world |- _ => destruct w; simpl in Hc, Hf; subst; simpl end.

Lemma list_news_healthy (w : world) (req : request) :
  healthy w →
  dispatch GetNews req w
  = (Response 200 "application/json"
       (JObj [(lit "count", JNum (Z.of_nat (length (map_to_list (committed w)))));
              (lit "items",
               JArr (map row_dict (merge_sort row_le (map_to_list (committed w)))))]),
     World (environ w) [] [] (committed w) (committed w) (next_id w),
     [EvConnect true; EvExecute SelectAllNews; EvClose]).
Proof.
  intros Hh. run_healthy Hh.
  rewrite length_map. rewrite (Permutation_length (merge_sort_Permutation _ _)). done.
Qed.

Lemma create_news_healthy (w : world) (req : request)
    (d : list (pystr * json)) (t : pystr) :
  valid_create req d t → healthy w → committed w !! next_id w = None →
  let row := (JStr (strip t), default (JStr []) (dict_get (lit "content") d)) in
  let table := <[next_id w := row]> (committed w) in
  dispatch PostNews req w
  = (Response 201 "application/json" (item_dict (JNum (next_id w)) row.1 row.2),
     World (environ w) [] [] table table (next_id w + 1),
     [EvConnect true; EvExecute (InsertNews row.1 row.2); EvCommit; EvClose]).
Proof.
  intros (Hjson & Hbody & Htitle & Hstrip) Hh Hfresh.
  destruct req as [isj jb]. simpl in *. subst.
  unfold_py. simpl. rewrite Htitle. simpl.
  rewrite bool_decide_eq_false_2 by done. simpl.
  rewrite (healthy_acquire _ Hh). destruct Hh as (_ & Hc & Hf).
  destruct w. simpl in *. subst. rewrite Hfresh. simpl. done.
Qed.

Lemma update_news_healthy (w : world) (item_id : Z) (req : request)
    (d : list (pystr * json)) (current_title current_content : json) :
  valid_update req d → healthy w →
  committed w !! item_id = Some (current_title, current_content) →
  let row := (default current_title (dict_get (lit "title") d),
              default current_content (dict_get (lit "content") d)) in
  let table := <[item_id := row]> (committed w) in
  dispatch (PutNews item_id) req w
  = (Response 200 "application/json" (item_dict (JNum item_id) row.1 row.2),
     World (environ w) [] [] table table (next_id w),
     [EvConnect true; EvExecute (SelectNewsById item_id);
      EvExecute (UpdateNews row.1 row.2 item_id); EvCommit; EvClose]).
Proof.
  intros (Hjson & Hbody) Hh Hrow.
  destruct req as [isj jb]. simpl in *. subst.
  unfold_py. simpl. rewrite (healthy_acquire _ Hh). destruct Hh as (_ & Hc & Hf).
  destruct w. simpl in *. subst. rewrite Hrow. simpl. rewrite Hrow. simpl. done.
Qed.

Lemma delete_news_healthy (w : world) (item_id : Z) (req : request) :
  healthy w →
  dispatch (DeleteNews item_id) req w
  = match committed w !! item_id with
    | Some _ =>
        (Response 200 "application/json"
           (JObj [(lit "status", JStr (lit "deleted")); (lit "id", JNum item_id)]),
         World (environ w) [] [] (delete item_id (committed w))
           (delete item_id (committed w)) (next_id w),
         [EvConnect true; EvExecute (DeleteNewsReturning item_id); EvCommit; EvClose])
    | None =>
        (Response 404 "application/json" (error_body (lit "Item not found")),
         World (environ w) [] [] (committed w) (committed w) (next_id w),
         [EvConnect true; EvExecute (DeleteNewsReturning item_id); EvClose])
    end.
Proof.
  intros Hh. unfold_py. simpl. rewrite (healthy_acquire _ Hh).
  destruct Hh as (_ & Hc & Hf). destruct w. simpl in *. subst.
  destruct (_ !! item_id); simpl; done.
Qed.



(** X2: after a valid create whose content is a string, null or absent, on
    a database that is up, the create is answered 201 with the object made
    of the new id, the trimmed title and the content, and the next GET /news
    is answered 200 and lists that very object, among one item more than the
    table held before. *)
Theorem create_then_list (w : world) (req req' : request)
    (d : list (pystr * json)) (t : pystr) :
  valid_create req d t →
  is_text_or_null (default (JStr []) (dict_get (lit "content") d)) →
  healthy w → committed w !! next_id w = None →
  let item :=
    JObj [(lit "id", JNum (next_id w)); (lit "title", JStr (strip t));
          (lit "content", default (JStr []) (dict_get (lit "content") d))] in
  let '(created, w1, _) := dispatch PostNews req w in
  let '(listed, _, _) := dispatch GetNews req' w1 in
  created = Response 201 "application/json" item
  ∧ status listed = 200
  ∧ ∃ items,
      body listed = JObj [(lit "count", JNum (Z.of_nat (length items)));
                          (lit "items", JArr items)]
      ∧ item ∈ items
      ∧ length items = S (size (committed w)).
Proof.
  intros Hreq _ Hh Hfresh.
  rewrite (create_news_healthy w req d t Hreq Hh Hfresh).
  rewrite list_news_healthy by by apply healthy_after.
  cbn [committed status body].
  split; [done|]. split; [done|].
  eexists (map row_dict (merge_sort row_le (map_to_list _))). split; [|split].
  - rewrite length_map, (Permutation_length (merge_sort_Permutation row_le _)). done.
  - apply list_elem_of_fmap.
    exists (next_id w, (JStr (strip t), default (JStr []) (dict_get (lit "content") d))).
    split; [done|]. rewrite merge_sort_Permutation.
    apply elem_of_map_to_list. apply lookup_insert_eq.
  - rewrite length_map, (Permutation_length (merge_sort_Permutation row_le _)).
    rewrite length_map_to_list. by apply map_size_insert_None.
Qed.

(** X3: deleting the id a create just returned answers 200 and gives back
    the table as it was before the create. *)
Theorem create_then_delete (w : world) (req req' : request)
    (d : list (pystr * json)) (t : pystr) :
  valid_create req d t → healthy w → committed w !! next_id w = None →
  let '(_, w1, _) := dispatch PostNews req w in
  let '(deleted, w2, _) := dispatch (DeleteNews (next_id w)) req' w1 in
  status deleted = 200 ∧ committed w2 = committed w.
Proof.
  intros Hreq Hh Hfresh.
  rewrite (create_news_healthy w req d t Hreq Hh Hfresh).
  rewrite delete_news_healthy by by apply healthy_after.
  cbn [committed]. rewrite lookup_insert_eq. cbn [committed status].
  split; [done|]. rewrite delete_insert_eq. by apply delete_id.
Qed.

(** X4: deleting an existing id twice answers 200 and then 404 "Item not
    found"; the second delete changes nothing. *)
Theorem delete_twice (w : world) (item_id : Z) (req req' : request) :
  healthy w → is_Some (committed w !! item_id) →
  let '(first, w1, _) := dispatch (DeleteNews item_id) req w in
  let '(second, w2, _) := dispatch (DeleteNews item_id) req' w1 in
  status first = 200
  ∧ second = Response 404 "application/json" (error_body (lit "Item not found"))
  ∧ committed w2 = committed w1
  ∧ committed w1 = delete item_id (committed w).
Proof.
  intros Hh [row Hrow].
  rewrite delete_news_healthy by done. rewrite Hrow.
  rewrite delete_news_healthy by by apply healthy_after.
  cbn [committed]. rewrite lookup_delete_eq. done.
Qed.

(** X5: sending the same update twice gives the same response twice, and
    the second leaves the table as the first made it. *)
Theorem update_twice (w : world) (item_id : Z) (req : request)
    (d : list (pystr * json)) (current_title current_content : json) :
  valid_update req d → healthy w →
  committed w !! item_id = Some (current_title, current_content) →
  let '(first, w1, _) := dispatch (PutNews item_id) req w in
  let '(second, w2, _) := dispatch (PutNews item_id) req w1 in
  status first = 200 ∧ second = first ∧ committed w2 = committed w1.
Proof.
  intros Hreq Hh Hrow.
  rewrite (update_news_healthy w item_id req d _ _ Hreq Hh Hrow).
  erewrite update_news_healthy;
    [|done|by apply healthy_after|cbn [committed]; apply lookup_insert_eq].
  cbn [committed next_id environ status]. split; [done|].
  destruct (dict_get (lit "title") d), (dict_get (lit "content") d); simpl;
    rewrite insert_insert_eq; done.
Qed.

(** X6: when acquisition succeeds, GET /db-health answers 200 with its ok
    body, whatever the database would do to a statement: it closes the
    connection and does nothing else on it, and the table, the pending
    faults and the sequence are untouched. *)
Theorem db_health_check_ok (w : world) (req : request) :
  acquires w →
  let '(resp, w', evs) := dispatch GetDbHealth req w in
  resp = Response 200 "application/json"
           (JObj [(lit "status", JStr (lit "ok"));
                  (lit "message", JStr (lit "Database connection successful"))])
  ∧ db_events evs = [EvClose]
  ∧ committed w' = committed w ∧ faults w' = faults w ∧ next_id w' = next_id w.
Proof.
  intros (cs & evs1 & Hacq & Hdb & _)%acquires_inv.
  unfold_py. simpl. rewrite Hacq. destruct w. simpl.
  rewrite db_events_app, Hdb. done.
Qed.

Ltac count_rollbacks :=
  rewrite ?rollbacks_app, ?opens_app;
  repeat match goal with H : _ = _ :> nat |- _ => rewrite H; clear H end;
  unfold rollbacks, opens; simpl; repeat split; try done; try lia.

(** X9: on every path, a run rolls back at most once; a run that rolled
    back answers 500 and leaves the table as it was; index, db-health and
    list never roll back; create, update and delete roll back whenever they
    answer 500 after having opened a connection. *)
Theorem rollback_exactly_on_database_errors (r : route) (req : request) (w : world) :
  let '(resp, w', evs) := dispatch r req w in
  (rollbacks evs ≤ 1)%nat
  ∧ (rollbacks evs = 1%nat → status resp = 500 ∧ committed w' = committed w)
  ∧ (is_read r = true → rollbacks evs = 0%nat)
  ∧ (is_read r = false → opens evs = 1%nat → status resp = 500 →
     rollbacks evs = 1%nat).
Proof.
  destruct r; unfold_py; simpl.
  - unfold rollbacks. simpl. repeat split; try done; lia.
  - acquire_step; repeat case_step;
      count_rollbacks.
  - acquire_step; repeat case_step;
      count_rollbacks.
  - destruct req; simpl; repeat case_step; try acquire_step; repeat case_step;
      count_rollbacks.
  - destruct req; simpl; repeat case_step; try acquire_step; repeat case_step;
      count_rollbacks.
  - acquire_step; repeat case_step;
      count_rollbacks.
Qed.

(** X10: when the first database call raises, list, create, update and
    delete answer 500 with the message of that exception under "error",
    whatever happens next (also when the rollback raises in its turn), and
    the table is as it was. *)
Theorem database_error_is_reported (w : world) (req : request) (item_id : Z)
    (msg : pystr) (fs : list (option pystr)) :
  acquires w → faults w = Some msg :: fs →
  let failed := Response 500 "application/json" (error_body msg) in
  (let '(resp, w', _) := dispatch GetNews req w in
   resp = failed ∧ committed w' = committed w)
  ∧ (∀ d t, valid_create req d t →
       let '(resp, w', _) := dispatch PostNews req w in
       resp = failed ∧ committed w' = committed w)
  ∧ (∀ payload, is_json req = true → json_body req = Some payload →
       let '(resp, w', _) := dispatch (PutNews item_id) req w in
       resp = failed ∧ committed w' = committed w)
  ∧ (let '(resp, w', _) := dispatch (DeleteNews item_id) req w in
     resp = failed ∧ committed w' = committed w).
Proof.
  intros (cs & evs1 & Hacq & Hdb & _)%acquires_inv Hfaults.
  destruct req as [isj jb].
  split; [|split; [|split]].
  - unfold_py. simpl. rewrite Hacq. destruct w. simpl in *. subst. simpl. done.
  - intros d t (Hjson & Hbody & Htitle & Hstrip). simpl in *. subst.
    unfold_py. simpl. rewrite Htitle. simpl.
    rewrite bool_decide_eq_false_2 by done. simpl. rewrite Hacq.
    destruct w. simpl in *. subst. simpl.
    destruct fs as [|[msg'|] fs]; simpl; done.
  - intros payload Hjson Hbody. simpl in *. subst.
    unfold_py. simpl. rewrite Hacq. destruct w. simpl in *. subst. simpl.
    destruct fs as [|[msg'|] fs]; simpl; done.
  - unfold_py. simpl. rewrite Hacq. destruct w. simpl in *. subst. simpl.
    destruct fs as [|[msg'|] fs]; simpl; done.
Qed.

(** X11: an update request that is not JSON, or whose body does not
    parse, is answered 400 before anything happens: no connection is
    attempted and the state is the one the request found. *)
Theorem update_news_validation (w : world) (item_id : Z) (req : request) :
  is_json req = false ∨ json_body req = None →
  let '(resp, w', evs) := dispatch (PutNews item_id) req w in
  status resp = 400 ∧ content_type resp = "application/json"%string
  ∧ (is_json req = false → body resp = error_body (lit "Request must be JSON"))
  ∧ w' = w ∧ evs = [].
Proof.
  intros Hbad. unfold_py. destruct req as [[] [payload|]]; simpl in *;
    destruct Hbad; try done.
Qed.

(** X12: an update of an id that is not in the table answers 404 "Item
    not found" whatever the JSON body is; the handler sends the SELECT,
    closes, and sends no UPDATE, no commit and no rollback. *)
Theorem update_news_absent (w : world) (item_id : Z) (req : request) (payload : json) :
  is_json req = true → json_body req = Some payload →
  acquires w → reliable w → committed w !! item_id = None →
  let '(resp, w', evs) := dispatch (PutNews item_id) req w in
  resp = Response 404 "application/json" (error_body (lit "Item not found"))
  ∧ committed w' = committed w
  ∧ db_events evs = [EvExecute (SelectNewsById item_id); EvClose].
Proof.
  intros Hjson Hbody (cs & evs1 & Hacq & Hdb & _)%acquires_inv Hrel Hrow.
  destruct req as [isj jb]. simpl in *. subst.
  unfold_py. simpl. rewrite Hacq.
  destruct w. unfold reliable in Hrel. simpl in *. subst.
  rewrite Hrow. simpl. rewrite db_events_app, Hdb. done.
Qed.

(** X13: an update of an existing id whose JSON body is not an object
    answers 500 with Python's message for the missing [get] attribute; the
    handler rolls back and the table is as it was. *)
Theorem update_news_not_an_object (w : world) (item_id : Z) (req : request)
    (payload : json) :
  is_json req = true → json_body req = Some payload →
  (∀ d, payload ≠ JObj d) →
  acquires w → reliable w → is_Some (committed w !! item_id) →
  let '(resp, w', evs) := dispatch (PutNews item_id) req w in
  resp = Response 500 "application/json"
           (error_body (lit "'" ++ type_name payload
                        ++ lit "' object has no attribute 'get'"))
  ∧ committed w' = committed w
  ∧ db_events evs = [EvExecute (SelectNewsById item_id); EvRollback; EvClose].
Proof.
  intros Hjson Hbody Hobj (cs & evs1 & Hacq & Hdb & _)%acquires_inv Hrel [row Hrow].
  destruct req as [isj jb]. simpl in *. subst.
  unfold_py. simpl. rewrite Hacq.
  destruct w. unfold reliable in Hrel. simpl in *. subst.
  rewrite Hrow. destruct row as [ct cc].
  destruct payload; simpl; rewrite ?db_events_app, ?Hdb; try done.
  by destruct (Hobj fields).
Qed.


(** X14: a create request whose JSON body is not an object never gets to
    the database: it is answered 400 or 500 with no connection attempted and
    the state unchanged. *)
Theorem create_news_not_an_object (w : world) (req : request) (payload : json) :
  is_json req = true → json_body req = Some payload →
  (∀ d, payload ≠ JObj d) →
  let '(resp, w', evs) := dispatch PostNews req w in
  (status resp = 400 ∨ status resp = 500)
  ∧ content_type resp = "application/json"%string
  ∧ w' = w ∧ evs = [].
Proof.
  intros Hjson Hbody Hobj.
  destruct req as [isj jb]. simpl in *. subst.
  unfold_py. simpl.
  destruct payload; try (by edestruct Hobj); simpl; repeat case_step;
    (split; [auto|done]).
Qed.


Lemma attempts_io (evs : list event) : attempts (io_events evs) = attempts evs.
Proof.
  unfold attempts, io_events.
  induction evs as [|[] evs IH]; simpl; try done; by rewrite IH.
Qed.

Lemma slept_io (evs : list event) : slept (io_events evs) = slept evs.
Proof.
  unfold io_events. induction evs as [|[] evs IH]; simpl; try done; by rewrite IH.
Qed.

Lemma attempts_backoff (delay : Z) (k : nat) (evs : list event) :
  attempts (backoff delay k ++ evs) = (k + attempts evs)%nat.
Proof.
  unfold backoff. induction k as [|k IH]; [done|]. simpl.
  unfold attempts in *. simpl. by rewrite IH.
Qed.

Lemma slept_backoff (delay : Z) (k : nat) (evs : list event) :
  slept (backoff delay k ++ evs) = delay * Z.of_nat k + slept evs.
Proof.
  unfold backoff. induction k as [|k IH]; [simpl; lia|].
  change (concat (replicate (S k) [EvConnect false; EvSleep delay]) ++ evs)
    with (EvConnect false :: EvSleep delay
          :: (concat (replicate k [EvConnect false; EvSleep delay]) ++ evs)).
  cbn [slept]. rewrite IH. lia.
Qed.

(** X15: in every state of the environment and of the database,
    [get_db_connection] returns (a connection or None, it never raises),
    makes at most 5 attempts, sleeps 5 seconds for each attempt after the
    first, hence at most 20 seconds, sends nothing on a connection, and
    leaves the environment, the table and the sequence as they were. *)
Theorem acquisition_is_bounded (w : world) :
  let '(r, w', evs) := get_db_connection w in
  (attempts evs ≤ 5)%nat
  ∧ slept evs = 5 * Z.of_nat (attempts evs - 1)
  ∧ slept evs ≤ 20
  ∧ (r = Ok None ∨ r = Ok (Some Connection))
  ∧ db_events evs = []
  ∧ environ w' = environ w ∧ committed w' = committed w
  ∧ faults w' = faults w ∧ next_id w' = next_id w.
Proof.
  pose proof (get_db_connection_frame w) as Hframe.
  assert (Hproto : all_nonempty w ∧ retry_protocol w
                   ∨ fails_immediately w).
  { destruct (forallb truthy [environ w !! "DB_HOST"%string;
                              environ w !! "DB_NAME"%string;
                              environ w !! "DB_USER"%string;
                              environ w !! "DB_PASS"%string]) eqn:Hconf.
    - left. apply all_nonempty_truthy in Hconf.
      split; [done|]. by apply get_db_connection_configured.
    - right. apply get_db_connection_unconfigured.
      rewrite all_nonempty_truthy, Hconf. done. }
  unfold retry_protocol, fails_immediately in Hproto.
  destruct (get_db_connection w) as [[r w'] evs].
  destruct Hframe as (Hdb & cs & Hcases).
  assert (Hcount : (attempts evs ≤ 5)%nat
                   ∧ slept evs = 5 * Z.of_nat (attempts evs - 1)
                   ∧ slept evs ≤ 20).
  { destruct Hproto as [[_ Hp]|[= _ _ ->]]; [|unfold attempts; simpl; lia].
    rewrite <- attempts_io, <- slept_io.
    case_decide as Hk; destruct Hp as [_ ->];
      rewrite attempts_backoff, slept_backoff; unfold attempts; simpl; lia. }
  destruct Hcount as (? & ? & ?).
  destruct Hcases as [(-> & -> & _)|(-> & -> & _)]; destruct w; simpl; auto 10.
Qed.

Lemma connect_attempts_logs (db_host db_name db_user db_pass : option pystr)
    (retries delay : Z) (todo : list Z) :
  ∀ w : world,
    let '(_, _, evs) :=
      connect_attempts db_host db_name db_user db_pass retries delay todo w in
    warnings evs = refusals evs ∧ errors evs = 0%nat.
Proof.
  induction todo as [|attempt rest IH]; intros w; [done|].
  simpl connect_attempts. unfold bind at 1. unfold try_except at 1.
  unfold bind at 1. unfold psycopg2_connect at 1.
  destruct (connects w) as [|[msg|] cs] eqn:Hcs; [done| |done].
  specialize (IH (set_connects cs w)).
  unfold logger_warning, sleep, emit, ret, bind.
  case_bool_decide; simpl;
    destruct (connect_attempts db_host db_name db_user db_pass retries delay
                rest (set_connects cs w)) as [[r' w'] evs'];
    simpl; unfold warnings, refusals, errors in *; simpl; destruct IH as [-> ->];
    done.
Qed.

(** X16: [get_db_connection] logs one warning per refused attempt, and one
    error exactly when it returns None. *)
Theorem acquisition_logging (w : world) :
  let '(r, _, evs) := get_db_connection w in
  warnings evs = refusals evs
  ∧ errors evs = match r with Ok None => 1%nat | _ => 0%nat end.
Proof.
  pose proof (get_db_connection_frame w) as Hframe.
  unfold get_db_connection, environ_get, bind in *. cbv beta iota zeta in *.
  destruct (negb (forallb truthy _)); [done|].
  pose proof (connect_attempts_logs (environ w !! "DB_HOST"%string)
                (environ w !! "DB_NAME"%string) (environ w !! "DB_USER"%string)
                (environ w !! "DB_PASS"%string) 5 5 (range 1 (5 + 1)) w) as Hlogs.
  destruct (connect_attempts _ _ _ _ 5 5 (range 1 (5 + 1)) w) as [[r w'] evs].
  destruct Hlogs as [Hw He].
  destruct r as [[[]|]|e]; unfold logger_error, emit, ret in *; simpl in *.
  - rewrite !app_nil_r. done.
  - unfold warnings, refusals, errors in *.
    rewrite !List.filter_app, !length_app, Hw, He. simpl. split; [lia|done].
  - destruct Hframe as (_ & cs & [([=] & _)|([=] & _)]).
Qed.

Lemma lstrip_spec (s : pystr) :
  ∃ pre, s = pre ++ lstrip s
    ∧ Forall (λ c, isspace c = true) pre
    ∧ (∀ c, head (lstrip s) = Some c → isspace c = false).
Proof.
  induction s as [|c s (pre & Hs & Hpre & Hhead)].
  - exists []. done.
  - simpl. destruct (isspace c) eqn:Hc.
    + exists (c :: pre). split; [by rewrite Hs at 1|]. split; [by constructor|done].
    + exists []. split; [done|]. split; [done|]. by intros c' [= <-].
Qed.

Lemma strip_spec (t : pystr) : trimmed_from t (strip t) ∧ tight (strip t).
Proof.
  unfold strip, rstrip.
  destruct (lstrip_spec t) as (pre & Ht & Hpre & Hhead).
  destruct (lstrip_spec (rev (lstrip t))) as (q & Ha & Hq & Hlast).
  assert (Hsplit : lstrip t = rev (lstrip (rev (lstrip t))) ++ rev q).
  { rewrite <- rev_app_distr, <- Ha. by rewrite rev_involutive. }
  split.
  - exists pre, (rev q). split; [by rewrite <- Hsplit|].
    split; [done|]. apply Forall_forall. intros c Hc.
    rewrite Forall_forall in Hq. apply Hq. by apply list_elem_of_In, in_rev, list_elem_of_In.
  - split.
    + intros c Hc. apply Hhead. rewrite Hsplit.
      destruct (rev (lstrip (rev (lstrip t)))); [done|]. done.
    + intros c Hc. apply Hlast.
      destruct (lstrip (rev (lstrip t))) as [|c' l]; [done|].
      simpl in Hc. rewrite last_app in Hc. simpl in Hc. by injection Hc as ->.
Qed.

(** X17: the title a create stores is the title of the request without
    the white space around it: it is not empty, it neither starts nor ends
    with white space, and the request's title is it between two runs of
    white space. *)
Theorem created_title_is_trimmed (w : world) (req : request)
    (d : list (pystr * json)) (t : pystr) :
  valid_create req d t →
  acquires w → reliable w → committed w !! next_id w = None →
  let '(_, w', _) := dispatch PostNews req w in
  ∃ s content,
    committed w' !! next_id w = Some (JStr s, content)
    ∧ s ≠ [] ∧ trimmed_from t s ∧ tight s.
Proof.
  intros (Hjson & Hbody & Htitle & Hstrip)
    (cs & evs1 & Hacq & Hdb & _)%acquires_inv Hrel Hfresh.
  destruct req as [isj jb]. simpl in *. subst.
  unfold_py. simpl. rewrite Htitle. simpl.
  rewrite bool_decide_eq_false_2 by done. simpl.
  rewrite Hacq.
  destruct w as [env con fl cm wk nid]. unfold reliable in Hrel. simpl in *. subst.
  rewrite Hfresh. simpl.
  eexists _, _. split; [apply lookup_insert_eq|]. split; [done|]. apply strip_spec.
Qed.

(** X18: an update sends whatever JSON value the body gives as title (a
    number, null, the empty string) as the parameter of the UPDATE, right
    after the SELECT that returned the row; when no call raises it answers
    200 with that value as title, and when the value is a string (the
    content being a string or null) it is the title stored. *)
Theorem update_title_is_not_checked (w : world) (item_id : Z) (req : request)
    (d : list (pystr * json)) (v current_title current_content : json) :
  valid_update req d → dict_get (lit "title") d = Some v →
  committed w !! item_id = Some (current_title, current_content) →
  acquires w → first_call_answers w →
  let content := default current_content (dict_get (lit "content") d) in
  let '(resp, w', evs) := dispatch (PutNews item_id) req w in
  take 2 (db_events evs)
  = [EvExecute (SelectNewsById item_id); EvExecute (UpdateNews v content item_id)]
  ∧ (reliable w →
     resp = Response 200 "application/json"
              (JObj [(lit "id", JNum item_id); (lit "title", v);
                     (lit "content", content)])
     ∧ (is_text v → is_text_or_null content →
        committed w' !! item_id = Some (v, content))).
Proof.
  intros (Hjson & Hbody) Htitle Hrow (cs & evs1 & Hacq & Hdb & _)%acquires_inv Hfirst.
  destruct req as [isj jb]. simpl in *. subst.
  unfold_py. simpl. rewrite Hacq.
  destruct w as [env con fl cm wk nid]. unfold first_call_answers, reliable in *.
  simpl in *.
  destruct fl as [|[msg|] fl]; [| by destruct (Hfirst msg fl) |]; simpl;
    rewrite Hrow; simpl; rewrite ?Hrow, Htitle; simpl;
    repeat (match goal with
            | |- context [match ?x with _ => _ end] => is_var x; destruct x; simpl
            end);
    rewrite db_events_app, Hdb; simpl; (split; [done|]);
    intros [=]; (split; [done|]); intros _ _; apply lookup_insert_eq.
Qed.


(** X19: every response of every route has content type application/json,
    and its status is one of: 200 for index; 200, 500 for db-health and
    list; 201, 400, 500 for create; 200, 400, 404, 500 for update;
    200, 404, 500 for delete. *)
Theorem responses_are_json (r : route) (req : request) (w : world) :
  let '(resp, _, _) := dispatch r req w in
  content_type resp = "application/json"%string ∧ status resp ∈ statuses r.
Proof.
  destruct r; unfold_py; simpl.
  - split; [done|set_solver].
  - acquire_step; repeat case_step; (split; [done|set_solver]).
  - acquire_step; repeat case_step; (split; [done|set_solver]).
  - destruct req; simpl; repeat case_step; try acquire_step; repeat case_step;
      (split; [done|set_solver]).
  - destruct req; simpl; repeat case_step; try acquire_step; repeat case_step;
      (split; [done|set_solver]).
  - acquire_step; repeat case_step; (split; [done|set_solver]).
Qed.

Lemma healthy_world_up : healthy world_up.
Proof.
  split; [|done]. apply all_nonempty_truthy. vm_compute. reflexivity.
Qed.

Lemma acquires_world_up : acquires world_up ∧ reliable world_up.
Proof. by apply healthy_acquires, healthy_world_up. Qed.

Lemma valid_post_hello :
  valid_create post_hello [(lit "title", JStr (lit "  Hello  "))] (lit "  Hello  ").
Proof. repeat split; vm_compute; congruence. Qed.

Lemma titled_hello_table : titled (committed world_up).
Proof.
  intros k row. unfold world_up, hello_table. simpl.
  intros [<- <-]%lookup_singleton_Some. eexists. split; [done|]. vm_compute. done.
Qed.


Lemma create_then_list_witness :
  let item :=
    JObj [(lit "id", JNum 2); (lit "title", JStr (lit "Hello"));
          (lit "content", JStr [])] in
  valid_create post_hello [(lit "title", JStr (lit "  Hello  "))] (lit "  Hello  ")
  ∧ is_text_or_null (JStr [])
  ∧ healthy world_up ∧ committed world_up !! next_id world_up = None
  ∧ (let '(created, w1, _) := dispatch PostNews post_hello world_up in
     let '(listed, _, _) := dispatch GetNews no_body w1 in
     created = Response 201 "application/json" item
     ∧ status listed = 200
     ∧ ∃ items,
         body listed = JObj [(lit "count", JNum (Z.of_nat (length items)));
                             (lit "items", JArr items)]
         ∧ item ∈ items).
Proof.
  intros item.
  assert (Htext : is_text_or_null (JStr [])) by (right; eexists; reflexivity).
  assert (Hfresh : committed world_up !! next_id world_up = None)
    by (vm_compute; reflexivity).
  split; [exact valid_post_hello|]. split; [exact Htext|].
  split; [exact healthy_world_up|]. split; [exact Hfresh|].
  pose proof (create_then_list world_up post_hello no_body _ _
                valid_post_hello Htext healthy_world_up Hfresh) as H.
  destruct (dispatch PostNews post_hello world_up) as [[created w1] evs1].
  destruct (dispatch GetNews no_body w1) as [[listed w2] evs2].
  destruct H as (H1 & H2 & items & H3 & H4 & _).
  split; [exact H1|]. split; [exact H2|]. exists items. split; [exact H3|exact H4].
Defined.

Lemma create_then_delete_witness :
  valid_create post_hello [(lit "title", JStr (lit "  Hello  "))] (lit "  Hello  ")
  ∧ healthy world_up ∧ committed world_up !! next_id world_up = None
  ∧ (let '(_, w1, _) := dispatch PostNews post_hello world_up in
     let '(deleted, w2, _) := dispatch (DeleteNews 2) no_body w1 in
     status deleted = 200 ∧ committed w2 = committed world_up).
Proof.
  assert (Hfresh : committed world_up !! next_id world_up = None)
    by (vm_compute; reflexivity).
  split; [exact valid_post_hello|]. split; [exact healthy_world_up|].
  split; [exact Hfresh|].
  exact (create_then_delete world_up post_hello no_body _ _
           valid_post_hello healthy_world_up Hfresh).
Defined.

Lemma delete_twice_witness :
  healthy world_up ∧ is_Some (committed world_up !! 1)
  ∧ (let '(first, w1, _) := dispatch (DeleteNews 1) no_body world_up in
     let '(second, w2, _) := dispatch (DeleteNews 1) no_body w1 in
     status first = 200 ∧ status second = 404 ∧ committed w2 = committed w1).
Proof.
  assert (Hrow : is_Some (committed world_up !! 1)) by (vm_compute; eauto).
  split; [exact healthy_world_up|]. split; [exact Hrow|].
  pose proof (delete_twice world_up 1 no_body no_body healthy_world_up Hrow) as H.
  destruct (dispatch (DeleteNews 1) no_body world_up) as [[first w1] evs1].
  destruct (dispatch (DeleteNews 1) no_body w1) as [[second w2] evs2].
  destruct H as (H1 & -> & H3 & _). split; [exact H1|]. split; [reflexivity|exact H3].
Defined.

Lemma update_twice_witness :
  valid_update put_content [(lit "content", JStr (lit "x"))]
  ∧ healthy world_up
  ∧ committed world_up !! 1 = Some (JStr (lit "Hello"), JStr (lit "first post"))
  ∧ (let '(first, w1, _) := dispatch (PutNews 1) put_content world_up in
     let '(second, w2, _) := dispatch (PutNews 1) put_content w1 in
     status first = 200 ∧ second = first ∧ committed w2 = committed w1).
Proof.
  assert (Hreq : valid_update put_content [(lit "content", JStr (lit "x"))])
    by (split; reflexivity).
  assert (Hrow : committed world_up !! 1
                 = Some (JStr (lit "Hello"), JStr (lit "first post")))
    by (vm_compute; reflexivity).
  split; [exact Hreq|]. split; [exact healthy_world_up|]. split; [exact Hrow|].
  exact (update_twice world_up 1 put_content _ _ _ Hreq healthy_world_up Hrow).
Defined.

Lemma db_health_check_ok_witness :
  acquires world_starting
  ∧ (let '(resp, w', evs) := dispatch GetDbHealth no_body world_starting in
     status resp = 200 ∧ db_events evs = [EvClose]).
Proof.
  assert (Hacq : acquires world_starting) by (vm_compute; reflexivity).
  split; [exact Hacq|].
  pose proof (db_health_check_ok world_starting no_body Hacq) as H.
  destruct (dispatch GetDbHealth no_body world_starting) as [[resp w'] evs].
  destruct H as (-> & Hev & _). split; [reflexivity|exact Hev].
Defined.

Lemma database_error_is_reported_witness :
  acquires world_faulty
  ∧ faults world_faulty = [Some (lit "connection lost"); Some (lit "gone")]
  ∧ (let '(resp, w', _) := dispatch (DeleteNews 1) no_body world_faulty in
     resp = Response 500 "application/json" (error_body (lit "connection lost"))
     ∧ committed w' = committed world_faulty)
  ∧ (let '(resp, w', _) := dispatch PostNews post_hello world_faulty in
     resp = Response 500 "application/json" (error_body (lit "connection lost"))
     ∧ committed w' = committed world_faulty).
Proof.
  assert (Hacq : acquires world_faulty) by (vm_compute; reflexivity).
  split; [exact Hacq|]. split; [reflexivity|].
  destruct (database_error_is_reported world_faulty post_hello 1
              (lit "connection lost") [Some (lit "gone")] Hacq eq_refl)
    as (_ & Hpost & _ & Hdel).
  split; [exact Hdel|]. exact (Hpost _ _ valid_post_hello).
Defined.

Lemma update_news_validation_witness :
  (is_json no_body = false ∨ json_body no_body = None)
  ∧ (let '(resp, w', evs) := dispatch (PutNews 1) no_body world_up in
     status resp = 400 ∧ w' = world_up ∧ evs = []).
Proof.
  assert (Hbad : is_json no_body = false ∨ json_body no_body = None)
    by (left; reflexivity).
  split; [exact Hbad|].
  pose proof (update_news_validation world_up 1 no_body Hbad) as H.
  destruct (dispatch (PutNews 1) no_body world_up) as [[resp w'] evs].
  destruct H as (? & _ & _ & ? & ?). done.
Defined.

Lemma update_news_absent_witness :
  acquires world_up ∧ reliable world_up ∧ committed world_up !! 7 = None
  ∧ (let '(resp, w', evs) := dispatch (PutNews 7) put_content world_up in
     resp = Response 404 "application/json" (error_body (lit "Item not found"))
     ∧ committed w' = committed world_up
     ∧ db_events evs = [EvExecute (SelectNewsById 7); EvClose]).
Proof.
  destruct acquires_world_up as [Hacq Hrel].
  assert (Hrow : committed world_up !! 7 = None) by (vm_compute; reflexivity).
  do 3 (split; [assumption|]).
  exact (update_news_absent world_up 7 put_content _ eq_refl eq_refl Hacq Hrel Hrow).
Defined.

Lemma update_news_not_an_object_witness :
  acquires world_up ∧ reliable world_up ∧ is_Some (committed world_up !! 1)
  ∧ (let '(resp, w', _) := dispatch (PutNews 1) put_array world_up in
     resp = Response 500 "application/json"
              (error_body (lit "'" ++ lit "list" ++ lit "' object has no attribute 'get'"))
     ∧ committed w' = committed world_up).
Proof.
  destruct acquires_world_up as [Hacq Hrel].
  assert (Hrow : is_Some (committed world_up !! 1)) by (vm_compute; eauto).
  do 3 (split; [assumption|]).
  pose proof (update_news_not_an_object world_up 1 put_array (JArr [JNum 1])
                eq_refl eq_refl ltac:(discriminate) Hacq Hrel Hrow) as H.
  destruct (dispatch (PutNews 1) put_array world_up) as [[resp w'] evs].
  destruct H as (-> & Hsame & _). split; [reflexivity|exact Hsame].
Defined.

Lemma create_news_not_an_object_witness :
  let '(resp, w', evs) := dispatch PostNews post_null world_down in
  (status resp = 400 ∨ status resp = 500) ∧ w' = world_down ∧ evs = [].
Proof.
  pose proof (create_news_not_an_object world_down post_null JNull
                eq_refl eq_refl ltac:(discriminate)) as H.
  destruct (dispatch PostNews post_null world_down) as [[resp w'] evs].
  destruct H as (? & _ & ? & ?). done.
Defined.

Lemma created_title_is_trimmed_witness :
  valid_create post_hello [(lit "title", JStr (lit "  Hello  "))] (lit "  Hello  ")
  ∧ acquires world_up ∧ reliable world_up
  ∧ committed world_up !! next_id world_up = None
  ∧ (let '(_, w', _) := dispatch PostNews post_hello world_up in
     ∃ s content,
       committed w' !! next_id world_up = Some (JStr s, content)
       ∧ s ≠ [] ∧ trimmed_from (lit "  Hello  ") s ∧ tight s).
Proof.
  destruct acquires_world_up as [Hacq Hrel].
  assert (Hfresh : committed world_up !! next_id world_up = None)
    by (vm_compute; reflexivity).
  split; [exact valid_post_hello|]. do 3 (split; [assumption|]).
  exact (created_title_is_trimmed world_up post_hello _ _
           valid_post_hello Hacq Hrel Hfresh).
Defined.

Lemma update_title_is_not_checked_witness :
  valid_update put_number_title [(lit "title", JNum 7)]
  ∧ valid_update put_empty_title [(lit "title", JStr [])]
  ∧ committed world_up !! 1 = Some (JStr (lit "Hello"), JStr (lit "first post"))
  ∧ acquires world_up ∧ first_call_answers world_up ∧ reliable world_up
  ∧ (let '(resp, _, evs) := dispatch (PutNews 1) put_number_title world_up in
     resp = Response 200 "application/json"
              (JObj [(lit "id", JNum 1); (lit "title", JNum 7);
                     (lit "content", JStr (lit "first post"))])
     ∧ take 2 (db_events evs)
       = [EvExecute (SelectNewsById 1);
          EvExecute (UpdateNews (JNum 7) (JStr (lit "first post")) 1)])
  ∧ (let '(_, w', _) := dispatch (PutNews 1) put_empty_title world_up in
     committed w' !! 1 = Some (JStr [], JStr (lit "first post"))).
Proof.
  destruct acquires_world_up as [Hacq Hrel].
  assert (Hnum : valid_update put_number_title [(lit "title", JNum 7)])
    by (split; reflexivity).
  assert (Hempty : valid_update put_empty_title [(lit "title", JStr [])])
    by (split; reflexivity).
  assert (Hrow : committed world_up !! 1
                 = Some (JStr (lit "Hello"), JStr (lit "first post")))
    by (vm_compute; reflexivity).
  assert (Hfirst : first_call_answers world_up)
    by (intros msg fs; vm_compute; discriminate).
  split; [exact Hnum|]. split; [exact Hempty|]. split; [exact Hrow|].
  do 3 (split; [assumption|]). split.
  - pose proof (update_title_is_not_checked world_up 1 put_number_title _ (JNum 7) _ _
                  Hnum ltac:(vm_compute; reflexivity) Hrow Hacq Hfirst) as H.
    destruct (dispatch (PutNews 1) put_number_title world_up) as [[resp w'] evs].
    destruct H as (Htake & Hok). destruct (Hok Hrel) as [Hresp _].
    split; [exact Hresp|exact Htake].
  - pose proof (update_title_is_not_checked world_up 1 put_empty_title _ (JStr []) _ _
                  Hempty ltac:(vm_compute; reflexivity) Hrow Hacq Hfirst) as H.
    destruct (dispatch (PutNews 1) put_empty_title world_up) as [[resp w'] evs].
    destruct H as (_ & Hok). destruct (Hok Hrel) as [_ Hstore].
    apply Hstore; [eexists; reflexivity|right; eexists; reflexivity].
Defined.


Lemma dispatch_table_step (r : route) (req : request) (w : world) :
  let '(resp, w', _) := dispatch r req w in table_step r resp w w'.
Proof.
  destruct r; unfold_py; simpl.
  - by apply Unchanged.
  - acquire_step; repeat case_step; by apply Unchanged.
  - acquire_step; repeat case_step; by apply Unchanged.
  - destruct req; simpl; repeat case_step; try acquire_step; repeat case_step;
      first [by apply Unchanged
            |eapply Created; simpl; try done;
             eapply bool_decide_eq_false_1; eassumption].
  - destruct req; simpl; repeat case_step; try acquire_step; repeat case_step;
      first [by apply Unchanged | eapply Updated; simpl; eauto].
  - acquire_step; repeat case_step;
      first [by apply Unchanged | eapply Deleted; simpl; eauto].
Qed.

(** X7: on every path, index, db-health and list leave the table as it
    was, and so does every request that is not answered 200 or 201. *)
Theorem failed_requests_change_nothing (r : route) (req : request) (w : world) :
  let '(resp, w', _) := dispatch r req w in
  (is_read r = true → committed w' = committed w)
  ∧ (status resp ≠ 200 → status resp ≠ 201 → committed w' = committed w).
Proof.
  pose proof (dispatch_table_step r req w) as Hstep.
  destruct (dispatch r req w) as [[resp w'] evs].
  destruct Hstep as [H|s c -> Hst _ _ _|item_id row -> Hst _ _|item_id -> Hst _ _];
    split; try done; intros; congruence.
Qed.

(** X8: on every path, a request changes no row but the one it addresses:
    the id in the URL for update and delete, the next value of the sequence
    for create. *)
Theorem other_rows_untouched (r : route) (req : request) (w : world) (k : Z) :
  addressed r w ≠ Some k →
  let '(_, w', _) := dispatch r req w in
  committed w' !! k = committed w !! k.
Proof.
  intros Hk. pose proof (dispatch_table_step r req w) as Hstep.
  destruct (dispatch r req w) as [[resp w'] evs].
  destruct Hstep as [->|s c -> _ _ _ ->|item_id row -> _ _ ->|item_id -> _ _ ->];
    simpl in Hk; try done.
  - rewrite lookup_insert_ne; congruence.
  - rewrite lookup_insert_ne; congruence.
  - rewrite lookup_delete_ne; congruence.
Qed.

Lemma other_rows_untouched_witness :
  addressed PostNews world_up ≠ Some 1
  ∧ (let '(_, w', _) := dispatch PostNews post_hello world_up in
     committed w' !! 1 = committed world_up !! 1).
Proof.
  assert (Hk : addressed PostNews world_up ≠ Some 1) by (vm_compute; congruence).
  split; [exact Hk|].
  exact (other_rows_untouched PostNews post_hello world_up 1 Hk).
Defined.

(** X20: on every path, a create keeps every row that was there and adds
    at most the row of the next sequence value; an update keeps the set of
    ids; a delete removes its id or nothing; the other routes change
    nothing. *)
Theorem rows_by_route (r : route) (req : request) (w : world) :
  let '(_, w', _) := dispatch r req w in
  match r with
  | PostNews =>
      (∀ k row, committed w !! k = Some row → committed w' !! k = Some row)
      ∧ dom (committed w') ⊆ dom (committed w) ∪ {[next_id w]}
  | PutNews _ => dom (committed w') = dom (committed w)
  | DeleteNews item_id =>
      committed w' = committed w ∨ committed w' = delete item_id (committed w)
  | _ => committed w' = committed w
  end.
Proof.
  pose proof (dispatch_table_step r req w) as Hstep.
  destruct (dispatch r req w) as [[resp w'] evs].
  destruct Hstep as [->|s c -> _ _ Hfresh ->|item_id row -> _ Hrow ->|item_id -> _ _ ->].
  - destruct r; try done; [split; [done|apply union_subseteq_l] | by left].
  - split; [|rewrite dom_insert_L; apply union_least;
             [apply union_subseteq_r|apply union_subseteq_l]].
    intros k row Hk. rewrite lookup_insert_ne; [done|congruence].
  - by apply dom_insert_lookup_L.
  - by right.
Qed.

(** X21: whatever sequence of requests is served and whatever the
    database does, if none of them is an update then every stored title
    stays a non-empty string. *)
Theorem titles_kept_without_updates (reqs : list (route * request)) :
  ∀ w : world,
    Forall (λ rr, is_update rr.1 = false) reqs →
    titled (committed w) → titled (committed (serve reqs w)).
Proof.
  induction reqs as [|[r req] reqs IH]; intros w Hreqs Ht; [done|].
  apply Forall_cons in Hreqs as [Hr Hreqs]. simpl in *.
  apply IH; [done|].
  pose proof (dispatch_table_step r req w) as Hstep.
  destruct (dispatch r req w) as [[resp w'] evs]. simpl.
  destruct Hstep as [->|s c -> _ Hs _ ->|item_id row -> _ _ _|item_id -> _ _ ->];
    try done.
  - by apply titled_insert.
  - by apply titled_delete.
Qed.

Lemma titles_kept_without_updates_witness :
  let reqs := [(PostNews, post_hello); (GetNews, no_body); (DeleteNews 1, no_body);
               (PostNews, post_blank); (PostNews, post_odd_content)] in
  Forall (λ rr, is_update rr.1 = false) reqs
  ∧ titled (committed world_up)
  ∧ titled (committed (serve reqs world_up)).
Proof.
  intros reqs.
  assert (Hreqs : Forall (λ rr, is_update rr.1 = false) reqs)
    by (repeat constructor).
  split; [exact Hreqs|]. split; [exact titled_hello_table|].
  exact (titles_kept_without_updates reqs world_up Hreqs titled_hello_table).
Defined.
